(** * Sequential funnel analysis: the event repository and the event service

    A shallow embedding of [EventRepository.getUsersForStep],
    [EventRepository.getUsersCompletingSequentialSteps]
    (server/src/repositories/event.repository.ts) and
    [EventService.analyzeFunnel] (server/src/services/event.service.ts),
    with the properties of the funnel chain and of its statistics.

    Conventions.
    - A JavaScript [string] is a [string]; a [string[]] is a [list string].
    - A valid [Date] is its [getTime()] value, a [Z] (milliseconds since the
      epoch); the result of [new Date(s)] is an [option Z], [None] being the
      Invalid Date whose [getTime()] is NaN.
    - An array length is a [nat]; every other JavaScript [number] (the rates)
      is an IEEE 754 binary64 value, Rocq's primitive [float].
    - The code runs against one MongoDB collection.  A computation is a
      function of the database state returning an outcome ([Ok] or a thrown
      [Error] message) and the new state; the state is the collection and
      the log of the aggregations issued so far.  The collection always
      answers: a rejected aggregation is not modelled, nor are the calls to
      the logger (the [catch] blocks of the repository log and rethrow). *)

From Stdlib Require Import String Ascii ZArith Bool Lia Arith List.
From Stdlib Require Import DecimalString.
From Stdlib Require Import PrimFloat Uint63.
Import ListNotations.

Local Open Scope string_scope.
Local Open Scope list_scope.

(** ** Shared types (shared/src/types) *)

Record UTMParameters := {
  utm_source : option string;
  utm_medium : option string;
  utm_campaign : option string;
  utm_term : option string;
  utm_content : option string
}.

Record PageViewContent := {
  path : string;
  first_view : bool;
  hostname : string;
  utm : option UTMParameters
}.

(** [EventDocument] (server/src/models/event.model.ts).  [platform] and
    [type] are kept as the strings stored in the collection. *)
Record EventDocument := {
  _id : string;
  user_id : string;
  session_id : string;
  device_id : option string;
  platform : string;
  type : string;
  date : Z;
  content : PageViewContent;
  version : option string
}.

(** [FunnelStepConfig].  [matchType] is the string received at run time:
    the TypeScript union ['path' | 'hostname'] is not checked by the
    repository. *)
Record FunnelStepConfig := {
  name : string;
  matchType : string;
  matchValue : string
}.

Record FunnelAnalysisRequest := {
  steps : list FunnelStepConfig;
  startDate : string;
  endDate : string
}.

Record FunnelStepResult := {
  step : string;
  stepIndex : nat;
  users : nat;
  conversionRate : float;
  dropoffRate : float;
  stepConversionRate : float
}.

Record FunnelSummary := {
  totalUsers : nat;
  completedUsers : nat;
  overallConversionRate : float;
  avgStepConversionRate : float
}.

Record FunnelAnalysisResult := {
  result_steps : list FunnelStepResult;
  summary : FunnelSummary
}.

(** The number held by an array length, as a binary64 value (exact below
    2^53, and an array length is below 2^32). *)
Definition number_of_nat (n : nat) : float :=
  PrimFloat.of_uint63 (Uint63.of_Z (Z.of_nat n)).

Definition string_of_Z (z : Z) : string :=
  NilEmpty.string_of_int (Z.to_int z).

(** ** Computations against the events collection *)

(** The [$match] document that [getUsersForStep] builds.  [platform] and
    [type] are always set; the other keys are present once assigned. *)
Record MatchConditions := {
  mc_platform : string;
  mc_type : string;
  mc_user_id : option (list string);      (* user_id: { $in: ... } *)
  mc_date : option (Z * Z);               (* date: { $gte: ..., $lte: ... } *)
  mc_content_path : option string;        (* 'content.path' *)
  mc_content_hostname : option string     (* 'content.hostname' *)
}.

Definition set_user_id (c : MatchConditions) (us : list string) :=
  {| mc_platform := mc_platform c; mc_type := mc_type c;
     mc_user_id := Some us; mc_date := mc_date c;
     mc_content_path := mc_content_path c;
     mc_content_hostname := mc_content_hostname c |}.

Definition set_date (c : MatchConditions) (gte lte : Z) :=
  {| mc_platform := mc_platform c; mc_type := mc_type c;
     mc_user_id := mc_user_id c; mc_date := Some (gte, lte);
     mc_content_path := mc_content_path c;
     mc_content_hostname := mc_content_hostname c |}.

Definition set_content_path (c : MatchConditions) (v : string) :=
  {| mc_platform := mc_platform c; mc_type := mc_type c;
     mc_user_id := mc_user_id c; mc_date := mc_date c;
     mc_content_path := Some v;
     mc_content_hostname := mc_content_hostname c |}.

Definition set_content_hostname (c : MatchConditions) (v : string) :=
  {| mc_platform := mc_platform c; mc_type := mc_type c;
     mc_user_id := mc_user_id c; mc_date := mc_date c;
     mc_content_path := mc_content_path c;
     mc_content_hostname := Some v |}.

(** The database seen by the repository: the events collection and the
    [$match] documents of the aggregations issued so far, oldest first. *)
Record Db := {
  collection : list EventDocument;
  aggregations : list MatchConditions
}.

Inductive Outcome (A : Type) :=
| Ok (a : A)
| Thrown (message : string).
Arguments Ok {A} a.
Arguments Thrown {A} message.

Definition Async (A : Type) : Type := Db -> Outcome A * Db.

Definition ret {A} (a : A) : Async A := fun db => (Ok a, db).

Definition throw {A} (message : string) : Async A :=
  fun db => (Thrown message, db).

Definition bind {A B} (m : Async A) (k : A -> Async B) : Async B :=
  fun db =>
    match m db with
    | (Ok a, db') => k a db'
    | (Thrown message, db') => (Thrown message, db')
    end.

Declare Scope async_scope.
Delimit Scope async_scope with async.
Notation "x <- m ;; k" := (bind m (fun x => k))
  (at level 100, m at next level, right associativity) : async_scope.
Local Open Scope async_scope.

(** *** The aggregation pipeline of [getUsersForStep]

    [[ { $match: c }, { $group: { _id: '$user_id' } },
       { $project: { _id: 0, user_id: '$_id' } } ]] *)

Definition includes (us : list string) (u : string) : bool :=
  existsb (String.eqb u) us.

Definition matches (c : MatchConditions) (e : EventDocument) : bool :=
  (platform e =? mc_platform c)
  && (type e =? mc_type c)
  && match mc_user_id c with
     | Some us => includes us (user_id e)
     | None => true
     end
  && match mc_date c with
     | Some (gte, lte) => (gte <=? date e)%Z && (date e <=? lte)%Z
     | None => true
     end
  && match mc_content_path c with
     | Some v => path (content e) =? v
     | None => true
     end
  && match mc_content_hostname c with
     | Some v => hostname (content e) =? v
     | None => true
     end.

Record GroupDoc := { group_id : string }.
Record UserDoc := { doc_user_id : string }.

Definition stage_match (c : MatchConditions) (docs : list EventDocument) :=
  filter (matches c) docs.

(** One group per distinct [user_id].  MongoDB fixes no order for the
    groups; here they come in the order of [nodup]. *)
Definition stage_group (docs : list EventDocument) : list GroupDoc :=
  map (fun u => {| group_id := u |}) (nodup string_dec (map user_id docs)).

Definition stage_project (docs : list GroupDoc) : list UserDoc :=
  map (fun g => {| doc_user_id := group_id g |}) docs.

(** [collection.aggregate(pipeline).toArray()]: reads the collection and
    leaves it as it is. *)
Definition aggregate (c : MatchConditions) : Async (list UserDoc) :=
  fun db =>
    (Ok (stage_project (stage_group (stage_match c (collection db)))),
     {| collection := collection db;
        aggregations := aggregations db ++ [c] |}).

(** ** EventRepository *)

Definition getUsersForStep (step : FunnelStepConfig) (startDate endDate : Z)
    (previousStepUsers : option (list string)) : Async (list string) :=
  let matchConditions :=
    {| mc_platform := "web"; mc_type := "page_view";
       mc_user_id := None; mc_date := None;
       mc_content_path := None; mc_content_hostname := None |} in
  let matchConditions :=
    match previousStepUsers with
    | Some us =>
        if (0 <? length us)%nat then set_user_id matchConditions us
        else matchConditions
    | None => matchConditions
    end in
  let matchConditions := set_date matchConditions startDate endDate in
  let matchConditions :=
    if matchType step =? "path"
    then set_content_path matchConditions (matchValue step)
    else set_content_hostname matchConditions (matchValue step) in
  result <- aggregate matchConditions ;;
  ret (map doc_user_id result).

(** The loop [for (let i = 1; i <= stepIndex; i++)], with [count] the
    number of iterations left. *)
Fixpoint filterThroughSteps (steps : list FunnelStepConfig)
    (startDate endDate : Z) (count i : nat)
    (usersAtCurrentStep : list string) : Async (list string) :=
  match count with
  | O => ret usersAtCurrentStep
  | S count' =>
      match nth_error steps i with
      | None =>
          throw ("Step at index " ++ string_of_Z (Z.of_nat i) ++ " is undefined")
      | Some currentStep =>
          usersAtCurrentStep <-
            getUsersForStep currentStep startDate endDate
              (Some usersAtCurrentStep) ;;
          filterThroughSteps steps startDate endDate count' (S i)
            usersAtCurrentStep
      end
  end.

Definition getUsersCompletingSequentialSteps (steps : list FunnelStepConfig)
    (stepIndex : Z) (startDate endDate : Z) : Async (list string) :=
  if (stepIndex <? 0)%Z || (stepIndex >=? Z.of_nat (length steps))%Z
  then throw ("Invalid step index: " ++ string_of_Z stepIndex)
  else
    match nth_error steps 0 with
    | None => throw "No steps provided"
    | Some firstStep =>
        if (stepIndex =? 0)%Z
        then getUsersForStep firstStep startDate endDate None
        else
          usersAtCurrentStep <-
            getUsersForStep firstStep startDate endDate None ;;
          filterThroughSteps steps startDate endDate (Z.to_nat stepIndex) 1
            usersAtCurrentStep
    end.

(** ** EventService *)

Section Service.

(** [new Date(s)] for a string [s]: the instant, or [None] for the Invalid
    Date. *)
Variable new_Date : string -> option Z.

(** The loop [for (let i = 0; i < steps.length; i++)] of [analyzeFunnel],
    with [count = steps.length - i]. *)
Fixpoint funnelLoop (steps : list FunnelStepConfig)
    (startDateTime endDateTime : Z) (count i : nat)
    (stepResults : list FunnelStepResult) (previousUsers : nat)
    : Async (list FunnelStepResult) :=
  match count with
  | O => ret stepResults
  | S count' =>
      users' <-
        getUsersCompletingSequentialSteps steps (Z.of_nat i)
          startDateTime endDateTime ;;
      let userCount := length users' in
      let totalUsers :=
        if (i =? 0)%nat then userCount
        else match nth_error stepResults 0 with
             | Some r => r.(users)
             | None => 0
             end in
      let conversionRate :=
        if (0 <? totalUsers)%nat
        then PrimFloat.mul
               (PrimFloat.div (number_of_nat userCount)
                  (number_of_nat totalUsers)) 100%float
        else 0%float in
      let stepConversionRate :=
        if (i =? 0)%nat || (previousUsers =? 0)%nat then 100%float
        else PrimFloat.mul
               (PrimFloat.div (number_of_nat userCount)
                  (number_of_nat previousUsers)) 100%float in
      let dropoffRate := PrimFloat.sub 100%float stepConversionRate in
      let stepResults :=
        stepResults ++
        [ {| step := match nth_error steps i with
                     | Some s => name s
                     | None => "Unknown"
                     end;
             stepIndex := i;
             users := userCount;
             conversionRate := conversionRate;
             dropoffRate := if (i =? 0)%nat then 0%float else dropoffRate;
             stepConversionRate := stepConversionRate |} ] in
      funnelLoop steps startDateTime endDateTime count' (S i)
        stepResults userCount
  end.

Definition summarize (stepResults : list FunnelStepResult) : FunnelSummary :=
  let totalUsers :=
    match nth_error stepResults 0 with
    | Some r => r.(users)
    | None => 0
    end in
  let completedUsers :=
    match length stepResults with
    | O => 0                      (* stepResults[-1] is undefined *)
    | S last =>
        match nth_error stepResults last with
        | Some r => r.(users)
        | None => 0
        end
    end in
  let overallConversionRate :=
    if (0 <? totalUsers)%nat
    then PrimFloat.mul
           (PrimFloat.div (number_of_nat completedUsers)
              (number_of_nat totalUsers)) 100%float
    else 0%float in
  let stepConversionRates := map stepConversionRate (skipn 1 stepResults) in
  let avgStepConversionRate :=
    if (0 <? length stepConversionRates)%nat
    then PrimFloat.div
           (fold_left PrimFloat.add stepConversionRates 0%float)
           (number_of_nat (length stepConversionRates))
    else 100%float in
  {| totalUsers := totalUsers;
     completedUsers := completedUsers;
     overallConversionRate := overallConversionRate;
     avgStepConversionRate := avgStepConversionRate |}.

Definition analyzeFunnel (request : FunnelAnalysisRequest)
    : Async FunnelAnalysisResult :=
  let steps := request.(steps) in
  if (length steps =? 0)%nat
  then throw "At least one funnel step is required"
  else
    match new_Date request.(startDate), new_Date request.(endDate) with
    | Some startDateTime, Some endDateTime =>
        stepResults <-
          funnelLoop steps startDateTime endDateTime (length steps) 0 [] 0 ;;
        ret {| result_steps := stepResults;
               summary := summarize stepResults |}
    | _, _ => throw "Invalid date format"
    end.

End Service.

(** ** Fixtures (after server/src/tests/fixtures/events.fixture.ts) *)

(** The two date strings of the service tests; every other string is
    taken as unparseable. *)
Definition fixture_Date (s : string) : option Z :=
  if s =? "2025-01-01T00:00:00Z" then Some 1735689600000%Z
  else if s =? "2025-01-31T23:59:59Z" then Some 1738367999000%Z
  else None.

(** A web page view on 2025-01-15T10:00:00.000Z. *)
Definition mockPageView (id user p h : string) : EventDocument :=
  {| _id := id; user_id := user; session_id := "session_456";
     device_id := Some "device_789"; platform := "web"; type := "page_view";
     date := 1736935200000%Z;
     content := {| path := p; first_view := true; hostname := h;
                   utm := None |};
     version := Some "1.0.0" |}.

Definition db_of (events : list EventDocument) : Db :=
  {| collection := events; aggregations := [] |}.

(** [user_1] saw the home page and the pricing page, [user_2] the home page
    only, [user_3] the signup page only. *)
Definition mockEvents : list EventDocument :=
  [ mockPageView "e1" "user_1" "/homepage" "www.trainwell.net";
    mockPageView "e2" "user_1" "/pricing" "www.trainwell.net";
    mockPageView "e3" "user_2" "/homepage" "www.trainwell.net";
    mockPageView "e4" "user_2" "/homepage" "www.trainwell.net";
    mockPageView "e5" "user_3" "/signup" "www.trainwell.net" ].

Definition pathStep (n v : string) : FunnelStepConfig :=
  {| name := n; matchType := "path"; matchValue := v |}.

Definition mockRequest (ss : list FunnelStepConfig) : FunnelAnalysisRequest :=
  {| steps := ss; startDate := "2025-01-01T00:00:00Z";
     endDate := "2025-01-31T23:59:59Z" |}.

(** ** Closed forms used in the proofs *)

(** The [$match] document assembled by [getUsersForStep]. *)
Definition stepConditions (step : FunnelStepConfig) (startDate endDate : Z)
    (previousStepUsers : option (list string)) : MatchConditions :=
  let c0 :=
    {| mc_platform := "web"; mc_type := "page_view";
       mc_user_id := None; mc_date := None;
       mc_content_path := None; mc_content_hostname := None |} in
  let c1 :=
    match previousStepUsers with
    | Some us => if (0 <? length us)%nat then set_user_id c0 us else c0
    | None => c0
    end in
  let c2 := set_date c1 startDate endDate in
  if matchType step =? "path"
  then set_content_path c2 (matchValue step)
  else set_content_hostname c2 (matchValue step).

(** The users an aggregation with those conditions finds in [events]. *)
Definition stepUsers (events : list EventDocument) (step : FunnelStepConfig)
    (startDate endDate : Z) (previousStepUsers : option (list string))
    : list string :=
  nodup string_dec
    (map user_id
       (filter (matches (stepConditions step startDate endDate
                           previousStepUsers)) events)).

Definition logged (db : Db) (c : MatchConditions) : Db :=
  {| collection := collection db; aggregations := aggregations db ++ [c] |}.

(** Users left after resolving the steps of [rest] one after the other,
    each with the users of the one before as [previousStepUsers]. *)
Fixpoint throughSteps (events : list EventDocument) (startDate endDate : Z)
    (rest : list FunnelStepConfig) (us : list string) : list string :=
  match rest with
  | [] => us
  | st :: rest' =>
      throughSteps events startDate endDate rest'
        (stepUsers events st startDate endDate (Some us))
  end.

Definition sequentialUsers (events : list EventDocument)
    (steps : list FunnelStepConfig) (startDate endDate : Z) (i : nat)
    : list string :=
  match steps with
  | [] => []
  | firstStep :: rest =>
      throughSteps events startDate endDate (firstn i rest)
        (stepUsers events firstStep startDate endDate None)
  end.

(** The candidate restriction as the repository applies it: only a
    non-empty array restricts. *)
Definition candidateAllows (previousStepUsers : option (list string))
    (u : string) : Prop :=
  match previousStepUsers with
  | Some (x :: us) => In u (x :: us)
  | _ => True
  end.

(** [n / d * 100] on binary64 numbers. *)
Definition percentage (n d : nat) : float :=
  PrimFloat.mul (PrimFloat.div (number_of_nat n) (number_of_nat d)) 100%float.

(** Entry [i] of [stepResults], from the user counts [count j] of the
    steps. *)
Definition stepResultAt (steps : list FunnelStepConfig) (count : nat -> nat)
    (i : nat) : FunnelStepResult :=
  let stepConversionRate :=
    if (i =? 0)%nat || (count (i - 1) =? 0)%nat then 100%float
    else percentage (count i) (count (i - 1)) in
  {| step := match nth_error steps i with
             | Some s => name s
             | None => "Unknown"
             end;
     stepIndex := i;
     users := count i;
     conversionRate :=
       if (0 <? count 0)%nat then percentage (count i) (count 0)
       else 0%float;
     dropoffRate :=
       if (i =? 0)%nat then 0%float
       else PrimFloat.sub 100%float stepConversionRate;
     stepConversionRate := stepConversionRate |}.

Definition stepResultsOf (events : list EventDocument)
    (steps : list FunnelStepConfig) (startDate endDate : Z)
    : list FunnelStepResult :=
  map (stepResultAt steps
         (fun j => length (sequentialUsers events steps startDate endDate j)))
      (seq 0 (length steps)).

(** ** The Resolver and the incremental fold of the specification

    These follow the words of the specification, not the code.

    Resolver (4.1): the de-duplicated [user_id]s with at least one event
    in the window, of platform "web" and type "page_view", whose
    [content.path] (for matchType "path") or [content.hostname] (for
    matchType "hostname") equals [matchValue], "candidate-filtered if
    provided": a supplied candidate set restricts, whatever its size. *)

Definition specStepMatches (step : FunnelStepConfig) (startDate endDate : Z)
    (candidateUsers : option (list string)) (ev : EventDocument) : bool :=
  (platform ev =? "web") && (type ev =? "page_view")
  && ((startDate <=? date ev)%Z && (date ev <=? endDate)%Z)
  && (((matchType step =? "path") && (path (content ev) =? matchValue step))
      || ((matchType step =? "hostname")
          && (hostname (content ev) =? matchValue step)))
  && match candidateUsers with
     | Some us => includes us (user_id ev)
     | None => true
     end.

Definition specResolveStepUsers (events : list EventDocument)
    (step : FunnelStepConfig) (startDate endDate : Z)
    (candidateUsers : option (list string)) : list string :=
  nodup string_dec
    (map user_id
       (filter (specStepMatches step startDate endDate candidateUsers)
          events)).

(** Data flow (2) and core loop (4.2): "for step 0, calls Resolver with
    no candidate restriction; for step i>0, calls Resolver with the user
    set returned from step i-1 as candidates". *)

Fixpoint specResolveFrom (events : list EventDocument)
    (startDate endDate : Z) (rest : list FunnelStepConfig)
    (candidates : list string) : list (list string) :=
  match rest with
  | [] => []
  | st :: rest' =>
      let next :=
        specResolveStepUsers events st startDate endDate (Some candidates) in
      next :: specResolveFrom events startDate endDate rest' next
  end.

Definition specCandidates (events : list EventDocument)
    (steps : list FunnelStepConfig) (startDate endDate : Z)
    : list (list string) :=
  match steps with
  | [] => []
  | st0 :: rest =>
      let first := specResolveStepUsers events st0 startDate endDate None in
      first :: specResolveFrom events startDate endDate rest first
  end.

(** The arithmetic mean of a list of numbers, summed from the left. *)
Definition arithmeticMean (xs : list float) : float :=
  PrimFloat.div (fold_left PrimFloat.add xs 0%float)
    (number_of_nat (length xs)).

(** What [analyzeFunnel] resolves to over the collection [events]. *)
Definition analysisOf (new_Date : string -> option Z)
    (events : list EventDocument) (request : FunnelAnalysisRequest)
    : Outcome FunnelAnalysisResult :=
  match request.(steps) with
  | [] => Thrown "At least one funnel step is required"
  | _ :: _ =>
      match new_Date request.(startDate), new_Date request.(endDate) with
      | Some startDateTime, Some endDateTime =>
          let stepResults :=
            stepResultsOf events request.(steps) startDateTime endDateTime in
          Ok {| result_steps := stepResults;
                summary := summarize stepResults |}
      | _, _ => Thrown "Invalid date format"
      end
  end.

(** The claim on the resolver's output, with the restriction to the
    candidate set read as the specification words it: it applies whenever
    a candidate set is supplied. *)
Definition restrictedTo (candidates : option (list string)) (u : string)
    : Prop :=
  match candidates with
  | Some us => In u us
  | None => True
  end.

(** An event that counts for [step] in the window. *)
Definition matchesStep (step : FunnelStepConfig) (startDate endDate : Z)
    (ev : EventDocument) : Prop :=
  platform ev = "web" /\ type ev = "page_view"
  /\ (startDate <= date ev <= endDate)%Z
  /\ (matchType step = "path" -> path (content ev) = matchValue step)
  /\ (matchType step = "hostname" ->
      hostname (content ev) = matchValue step).

(** A page view recorded on the web platform, the only events the
    funnel reads. *)
Definition isWebPageView (ev : EventDocument) : bool :=
  (platform ev =? "web") && (type ev =? "page_view").

(** An event that [step] accepts, as [getUsersForStep] tests it. *)
Definition stepAccepts (step : FunnelStepConfig) (startDate endDate : Z)
    (ev : EventDocument) : Prop :=
  platform ev = "web" /\ type ev = "page_view"
  /\ (startDate <= date ev <= endDate)%Z
  /\ (if matchType step =? "path"
      then path (content ev) = matchValue step
      else hostname (content ev) = matchValue step).

(** ** Events: model, repository, service and controller

    [_id] of an [EventDocument] holds the ObjectId as its [toString()].
    Reads through [find], [findOne] and [countDocuments] leave the
    database state as it is. *)

(** [EventDTO] (shared/src/types/event.types.ts). *)
Record EventDTO := {
  dto_id : string;
  dto_user_id : string;
  dto_session_id : string;
  dto_device_id : option string;
  dto_platform : string;
  dto_type : string;
  dto_date : string;
  dto_content : PageViewContent;
  dto_version : option string
}.

(** [EventQueryFilters] (server/src/models/event.model.ts); every key is
    optional. *)
Record EventQueryFilters := {
  filter_user_id : option string;
  filter_session_id : option string;
  filter_platform : option string;
  filter_type : option string;
  filter_hostname : option string;
  filter_path : option string;
  filter_startDate : option Z;
  filter_endDate : option Z
}.

Definition isHexDigit (c : ascii) : bool :=
  let n := nat_of_ascii c in
  ((48 <=? n) && (n <=? 57))%nat
  || ((97 <=? n) && (n <=? 102))%nat
  || ((65 <=? n) && (n <=? 70))%nat.

(** [EventModel.isValidObjectId]: [/^[a-f\d]{24}$/i.test(id)]. *)
Definition isValidObjectId (id : string) : bool :=
  (String.length id =? 24)%nat
  && forallb isHexDigit (list_ascii_of_string id).

(** The value of an optional string when it is truthy: present and not
    the empty string. *)
Definition truthyString (v : option string) : option string :=
  match v with
  | Some s => if s =? EmptyString then None else Some s
  | None => None
  end.

(** The filter document of [buildQuery]. *)
Record EventQuery := {
  q_platform : string;
  q_user_id : option string;
  q_session_id : option string;
  q_type : option string;
  q_content_hostname : option string;
  q_content_path : option string;
  q_date : option (option Z * option Z)   (* { $gte?, $lte? } *)
}.

(** [EventRepository.buildQuery]. *)
Definition buildQuery (filters : EventQueryFilters) : EventQuery :=
  {| q_platform := "web";
     q_user_id := truthyString (filter_user_id filters);
     q_session_id := truthyString (filter_session_id filters);
     q_type := truthyString (filter_type filters);
     q_content_hostname := truthyString (filter_hostname filters);
     q_content_path := truthyString (filter_path filters);
     q_date :=
       match filter_startDate filters, filter_endDate filters with
       | None, None => None
       | gte, lte => Some (gte, lte)
       end |}.

Definition fieldIs (expected : option string) (actual : string) : bool :=
  match expected with
  | Some v => actual =? v
  | None => true
  end.

Definition queryMatches (q : EventQuery) (e : EventDocument) : bool :=
  (platform e =? q_platform q)
  && fieldIs (q_user_id q) (user_id e)
  && fieldIs (q_session_id q) (session_id e)
  && fieldIs (q_type q) (type e)
  && fieldIs (q_content_hostname q) (hostname (content e))
  && fieldIs (q_content_path q) (path (content e))
  && match q_date q with
     | Some (gte, lte) =>
         match gte with Some d => (d <=? date e)%Z | None => true end
         && match lte with Some d => (date e <=? d)%Z | None => true end
     | None => true
     end.

(** A cursor with [skip] and [limit] set: the server skips first, and a
    limit of 0 is no limit. *)
Definition cursorPage {A} (limit skip : nat) (docs : list A) : list A :=
  let rest := skipn skip docs in
  if (limit =? 0)%nat then rest else firstn limit rest.

(** [EventRepository.findMany].  The query has no sort, so MongoDB
    fixes no order for the documents; here they come in the order of the
    collection, and nothing below is stated of their order. *)
Definition findMany (filters : EventQueryFilters) (limit skip : nat)
    : Async (list EventDocument) :=
  fun db =>
    let query := buildQuery filters in
    (Ok (cursorPage limit skip (filter (queryMatches query) (collection db))),
     db).

(** [EventRepository.count]. *)
Definition count (filters : EventQueryFilters) : Async nat :=
  fun db =>
    let query := buildQuery filters in
    (Ok (length (filter (queryMatches query) (collection db))), db).

(** [try { ... } catch (error) { throw new Error(message) }]. *)
Definition rethrowAs {A} (message : string) (m : Async A) : Async A :=
  fun db =>
    match m db with
    | (Ok a, db') => (Ok a, db')
    | (Thrown _, db') => (Thrown message, db')
    end.

Section Events.

(** [date.toISOString()] of a valid date. *)
Variable toISOString : Z -> string.

(** [new ObjectId(id)]: the identifier, or the error the constructor
    throws. *)
Variable new_ObjectId : string -> Outcome string.

(** [EventModel.toDTO]. *)
Definition toDTO (document : EventDocument) : EventDTO :=
  {| dto_id := _id document;
     dto_user_id := user_id document;
     dto_session_id := session_id document;
     dto_device_id := device_id document;
     dto_platform := platform document;
     dto_type := type document;
     dto_date := toISOString (date document);
     dto_content := content document;
     dto_version := version document |}.

(** [EventModel.toDTOs]. *)
Definition toDTOs (documents : list EventDocument) : list EventDTO :=
  map toDTO documents.

(** [EventRepository.findById]. *)
Definition findById (id : string) : Async (option EventDocument) :=
  match new_ObjectId id with
  | Ok objectId =>
      fun db =>
        (Ok (find (fun e => (_id e =? objectId) && (platform e =? "web"))
               (collection db)), db)
  | Thrown message => throw message
  end.

(** [EventService.getEventById]. *)
Definition getEventById (id : string) : Async (option EventDTO) :=
  rethrowAs "Failed to retrieve event"
    (if negb (isValidObjectId id) then ret None
     else
       event <- findById id ;;
       match event with
       | None => ret None
       | Some document => ret (Some (toDTO document))
       end).

(** [EventService.getEvents]. *)
Definition getEvents (filters : EventQueryFilters) (limit skip : nat)
    : Async (list EventDTO * nat) :=
  rethrowAs "Failed to retrieve events"
    (events <- findMany filters limit skip ;;
     total <- count filters ;;
     ret (toDTOs events, total)).

End Events.

(** *** The controller (controllers/event.controller.ts) *)

(** What a handler does with the request: it answers with a status and a
    JSON body, or hands an error to [next]. *)
Inductive Handled (J : Type) :=
| Json (status : nat) (body : J)
| Next (message : string).
Arguments Json {J} status body.
Arguments Next {J} message.

Record EventResponse := {
  er_success : bool;
  er_data : option EventDTO;
  er_error : option string
}.

Record Pagination := {
  pg_total : nat;
  pg_limit : Z;
  pg_skip : Z;
  pg_count : nat
}.

Record EventsResponse := {
  es_success : bool;
  es_data : option (list EventDTO);
  es_pagination : option Pagination;
  es_error : option string
}.

Record FunnelAnalysisResponse := {
  fr_success : bool;
  fr_data : option FunnelAnalysisResult;
  fr_error : option string
}.

(** [req.query] of GET /api/v1/events: a parameter is [Some s] when it is
    the string [s], [None] when it is absent or not a string. *)
Record EventsQuery := {
  query_user_id : option string;
  query_session_id : option string;
  query_type : option string;
  query_hostname : option string;
  query_path : option string;
  query_startDate : option string;
  query_endDate : option string;
  query_limit : option string;
  query_skip : option string
}.

(** [req.body] of POST /api/v1/events/funnel, for a body whose fields,
    where present, have the types of [FunnelAnalysisRequest]: [None] is a
    missing field ([raw_steps]: missing, or not an array).  An element
    of the steps array is a step object, or [None] for [null]. *)
Record RawStep := {
  raw_name : option string;
  raw_matchType : option string;
  raw_matchValue : option string
}.

Record RawBody := {
  raw_steps : option (list (option RawStep));
  raw_startDate : option string;
  raw_endDate : option string
}.

Definition stringOr (v : option string) : string :=
  match v with Some s => s | None => EmptyString end.

Definition option_bind {A B} (f : A -> option B) (v : option A) : option B :=
  match v with Some a => f a | None => None end.

(** The body read as a [FunnelAnalysisRequest].  The handler passes it
    on only after every step was checked, so no [null] step is left; one
    is read here as a step without fields. *)
Definition asRequest (body : RawBody) : FunnelAnalysisRequest :=
  {| steps :=
       map (fun step =>
              {| name := stringOr (option_bind raw_name step);
                 matchType := stringOr (option_bind raw_matchType step);
                 matchValue := stringOr (option_bind raw_matchValue step) |})
         match raw_steps body with Some l => l | None => [] end;
     startDate := stringOr (raw_startDate body);
     endDate := stringOr (raw_endDate body) |}.

Definition MAX_SAFE_INTEGER : Z := 9007199254740991.

(** The message [matchType must be either "path" or "hostname"]. *)
Definition matchTypeMessage : string :=
  let quote := String (ascii_of_nat 34) EmptyString in
  "matchType must be either " ++ quote ++ "path" ++ quote ++ " or "
  ++ quote ++ "hostname" ++ quote.

Definition isTruthy (v : option string) : bool :=
  match truthyString v with Some _ => true | None => false end.

Module EventController.

Section Controller.

Variable new_Date : string -> option Z.
Variable toISOString : Z -> string.
Variable new_ObjectId : string -> Outcome string.

(** [parseInt(s, 10)]: the integer, or [None] for NaN. *)
Variable parseInt : string -> option Z.

(** The message of the TypeError that reading [step.name] raises when
    [step] is [null]. *)
Variable nullStepError : string.

(** [parseNumber(value, defaultValue, min, max)]. *)
Definition parseNumber (value : option string) (defaultValue min max : Z)
    : Z :=
  match value with
  | Some s =>
      match parseInt s with
      | Some parsed =>
          if (min <=? parsed)%Z && (parsed <=? max)%Z then parsed
          else defaultValue
      | None => defaultValue
      end
  | None => defaultValue
  end.

Definition parseDateFilter (v : option string) : option Z :=
  match truthyString v with
  | Some s => new_Date s
  | None => None
  end.

(** [parseFilters(query)]. *)
Definition parseFilters (query : EventsQuery) : EventQueryFilters :=
  {| filter_user_id := truthyString (query_user_id query);
     filter_session_id := truthyString (query_session_id query);
     filter_platform := None;
     filter_type := truthyString (query_type query);
     filter_hostname := truthyString (query_hostname query);
     filter_path := truthyString (query_path query);
     filter_startDate := parseDateFilter (query_startDate query);
     filter_endDate := parseDateFilter (query_endDate query) |}.

(** GET /api/v1/events/:id *)
Definition getEventById (id : option string)
    : Db -> Handled EventResponse * Db :=
  fun db =>
    match truthyString id with
    | None =>
        (Json 400 {| er_success := false; er_data := None;
                     er_error := Some "Event ID is required" |}, db)
    | Some id =>
        match getEventById toISOString new_ObjectId id db with
        | (Ok None, db') =>
            (Json 404 {| er_success := false; er_data := None;
                         er_error := Some "Event not found" |}, db')
        | (Ok (Some event), db') =>
            (Json 200 {| er_success := true; er_data := Some event;
                         er_error := None |}, db')
        | (Thrown message, db') => (Next message, db')
        end
    end.

(** GET /api/v1/events *)
Definition getEvents (query : EventsQuery)
    : Db -> Handled EventsResponse * Db :=
  fun db =>
    let filters := parseFilters query in
    let limit := parseNumber (query_limit query) 100 1 1000 in
    let skip := parseNumber (query_skip query) 0 0 MAX_SAFE_INTEGER in
    match getEvents toISOString filters (Z.to_nat limit) (Z.to_nat skip) db
    with
    | (Ok (events, total), db') =>
        (Json 200
           {| es_success := true;
              es_data := Some events;
              es_pagination :=
                Some {| pg_total := total; pg_limit := limit;
                        pg_skip := skip; pg_count := length events |};
              es_error := None |}, db')
    | (Thrown message, db') => (Next message, db')
    end.

Definition badRequest (message : string) : Handled FunnelAnalysisResponse :=
  Json 400 {| fr_success := false; fr_data := None;
              fr_error := Some message |}.

(** The loop [for (const step of body.steps)]: every step passes, or
    the loop answers 400 with a message at the first step that fails a
    check, or it throws at the first [null] step. *)
Inductive StepCheck :=
| StepsPass
| StepRejected (message : string)
| StepThrows.

Fixpoint validateSteps (steps : list (option RawStep)) : StepCheck :=
  match steps with
  | [] => StepsPass
  | None :: _ => StepThrows
  | Some st :: rest =>
      if negb (isTruthy (raw_name st)) || negb (isTruthy (raw_matchType st))
         || negb (isTruthy (raw_matchValue st))
      then StepRejected "Each step must have name, matchType, and matchValue"
      else if negb (stringOr (raw_matchType st) =? "path")
              && negb (stringOr (raw_matchType st) =? "hostname")
      then StepRejected matchTypeMessage
      else validateSteps rest
  end.

(** POST /api/v1/events/funnel *)
Definition analyzeFunnel (body : RawBody)
    : Db -> Handled FunnelAnalysisResponse * Db :=
  fun db =>
    match raw_steps body with
    | None | Some [] =>
        (badRequest "At least one funnel step is required", db)
    | Some (st :: rest) =>
        if negb (isTruthy (raw_startDate body))
           || negb (isTruthy (raw_endDate body))
        then (badRequest "Start date and end date are required", db)
        else
          match validateSteps (st :: rest) with
          | StepRejected message => (badRequest message, db)
          | StepThrows =>
              (Json 500 {| fr_success := false; fr_data := None;
                           fr_error := Some nullStepError |}, db)
          | StepsPass =>
              match analyzeFunnel new_Date (asRequest body) db with
              | (Ok result, db') =>
                  (Json 200 {| fr_success := true; fr_data := Some result;
                               fr_error := None |}, db')
              | (Thrown message, db') =>
                  (Json 500 {| fr_success := false; fr_data := None;
                               fr_error := Some message |}, db')
              end
          end
    end.

End Controller.

End EventController.

(** *** Fixtures for the event endpoints *)

(** [toISOString] on the instant of the fixtures (other instants are
    printed as their number of milliseconds). *)
Definition fixture_toISOString (d : Z) : string :=
  if (d =? 1736935200000)%Z then "2025-01-15T10:00:00.000Z"
  else string_of_Z d.

Definition lowerHex (c : ascii) : ascii :=
  let n := nat_of_ascii c in
  if ((65 <=? n) && (n <=? 70))%nat then ascii_of_nat (n + 32) else c.

(** [new ObjectId(id)] on strings: 24 hexadecimal digits give the
    identifier, printed in lower case; other strings are refused. *)
Definition fixture_ObjectId (id : string) : Outcome string :=
  if isValidObjectId id
  then Ok (string_of_list_ascii (map lowerHex (list_ascii_of_string id)))
  else Thrown "input must be a 24 character hex string, 12 byte Uint8Array, or an integer".

Fixpoint digitsValue (acc : Z) (s : string) : Z :=
  match s with
  | String c rest =>
      let n := nat_of_ascii c in
      if ((48 <=? n) && (n <=? 57))%nat
      then digitsValue (10 * acc + Z.of_nat (n - 48)) rest
      else acc
  | EmptyString => acc
  end.

(** [parseInt(s, 10)] on strings that begin with a decimal digit; every
    other string is taken as NaN. *)
Definition fixture_parseInt (s : string) : option Z :=
  match s with
  | String c _ =>
      let n := nat_of_ascii c in
      if ((48 <=? n) && (n <=? 57))%nat then Some (digitsValue 0 s)
      else None
  | EmptyString => None
  end.

Definition noFilters : EventQueryFilters :=
  {| filter_user_id := None; filter_session_id := None;
     filter_platform := None; filter_type := None;
     filter_hostname := None; filter_path := None;
     filter_startDate := None; filter_endDate := None |}.

Definition noQuery : EventsQuery :=
  {| query_user_id := None; query_session_id := None; query_type := None;
     query_hostname := None; query_path := None; query_startDate := None;
     query_endDate := None; query_limit := None; query_skip := None |}.

(** Three stored events whose [_id] is an ObjectId string; the second
    one was recorded on iOS. *)
Definition storedEvents : list EventDocument :=
  [ mockPageView "507f1f77bcf86cd799439011" "user_1" "/homepage"
      "www.trainwell.net";
    {| _id := "507f1f77bcf86cd799439012"; user_id := "user_1";
       session_id := "session_456"; device_id := None;
       platform := "ios"; type := "page_view"; date := 1736935200000%Z;
       content := {| path := "/pricing"; first_view := false;
                     hostname := "www.trainwell.net"; utm := None |};
       version := None |};
    mockPageView "507f1f77bcf86cd799439013" "user_2" "/homepage"
      "www.trainwell.net" ].

Definition rawStep (n t v : string) : option RawStep :=
  Some {| raw_name := Some n; raw_matchType := Some t;
          raw_matchValue := Some v |}.

(** What V8 says of [null.name]. *)
Definition fixture_nullStepError : string :=
  "Cannot read properties of null (reading 'name')".

(** An element of the steps array that is a step object with a name, a
    value and one of the two match types. *)
Definition wellFormedStep (step : option RawStep) : Prop :=
  exists st,
    step = Some st
    /\ (exists n, raw_name st = Some n /\ n <> EmptyString)
    /\ (raw_matchType st = Some "path" \/ raw_matchType st = Some "hostname")
    /\ (exists v, raw_matchValue st = Some v /\ v <> EmptyString).

(** A body with at least one step, well-formed steps only, and both
    dates given as non-empty strings. *)
Definition validBody (body : RawBody) : Prop :=
  (exists st rest,
     raw_steps body = Some (st :: rest)
     /\ Forall wellFormedStep (st :: rest))
  /\ (exists s, raw_startDate body = Some s /\ s <> EmptyString)
  /\ (exists e, raw_endDate body = Some e /\ e <> EmptyString).

(** ** Campaign analysis: service and controller

    [CampaignService] receives its repository by injection; it is
    modelled over any [getCampaignMetrics]. *)

(** [CampaignMetrics] (shared/src/types/campaign.types.ts), without its
    two optional fields, which the repository never sets. *)
Record CampaignMetrics := {
  cm_utm_source : option string;
  cm_utm_medium : option string;
  cm_utm_campaign : option string;
  cm_totalUsers : nat;
  cm_firstViewUsers : nat;
  cm_conversionRate : float
}.

Record CampaignAnalysisRequest := {
  ca_startDate : string;
  ca_endDate : string;
  ca_utm_source : option string;
  ca_utm_medium : option string;
  ca_utm_campaign : option string
}.

Record CampaignSummary := {
  cs_totalCampaigns : nat;
  cs_totalUsers : nat;
  cs_topCampaign : option CampaignMetrics
}.

Record CampaignData := {
  cd_campaigns : list CampaignMetrics;
  cd_summary : CampaignSummary
}.

Record CampaignAnalysisResponse := {
  cr_success : bool;
  cr_data : option CampaignData;
  cr_error : option string
}.

(** [req.body] of POST /api/v1/campaigns/analyze, each field a string or
    missing. *)
Record RawCampaignBody := {
  rc_startDate : option string;
  rc_endDate : option string;
  rc_utm_source : option string;
  rc_utm_medium : option string;
  rc_utm_campaign : option string
}.

Definition asCampaignRequest (body : RawCampaignBody)
    : CampaignAnalysisRequest :=
  {| ca_startDate := stringOr (rc_startDate body);
     ca_endDate := stringOr (rc_endDate body);
     ca_utm_source := rc_utm_source body;
     ca_utm_medium := rc_utm_medium body;
     ca_utm_campaign := rc_utm_campaign body |}.

Definition campaignFailure (message : string) : CampaignAnalysisResponse :=
  {| cr_success := false; cr_data := None; cr_error := Some message |}.

Section Campaigns.

Variable new_Date : string -> option Z.

(** [campaignRepository.getCampaignMetrics(startDate, endDate,
    utm_source, utm_medium, utm_campaign)]. *)
Variable getCampaignMetrics :
  Z -> Z -> option string -> option string -> option string ->
  Async (list CampaignMetrics).

(** [CampaignService.analyzeCampaigns]: the body of the [try], then the
    [catch], which turns every error into a failure response. *)
Definition analyzeCampaigns_try (request : CampaignAnalysisRequest)
    : Async CampaignAnalysisResponse :=
  match new_Date request.(ca_startDate), new_Date request.(ca_endDate) with
  | Some startDate, Some endDate =>
      if (startDate >? endDate)%Z
      then throw "Start date must be before end date"
      else
        campaigns <-
          getCampaignMetrics startDate endDate request.(ca_utm_source)
            request.(ca_utm_medium) request.(ca_utm_campaign) ;;
        let totalUsers :=
          fold_left (fun sum campaign => sum + cm_totalUsers campaign)
            campaigns 0 in
        let topCampaign :=
          if (0 <? length campaigns)%nat then nth_error campaigns 0
          else None in
        ret {| cr_success := true;
               cr_data :=
                 Some {| cd_campaigns := campaigns;
                         cd_summary :=
                           {| cs_totalCampaigns := length campaigns;
                              cs_totalUsers := totalUsers;
                              cs_topCampaign := topCampaign |} |};
               cr_error := None |}
  | _, _ => throw "Invalid date format"
  end.

Definition analyzeCampaigns (request : CampaignAnalysisRequest)
    : Async CampaignAnalysisResponse :=
  fun db =>
    match analyzeCampaigns_try request db with
    | (Ok response, db') => (Ok response, db')
    | (Thrown errorMessage, db') => (Ok (campaignFailure errorMessage), db')
    end.

End Campaigns.

Module CampaignController.

Section Controller.

Variable new_Date : string -> option Z.
Variable getCampaignMetrics :
  Z -> Z -> option string -> option string -> option string ->
  Async (list CampaignMetrics).

(** POST /api/v1/campaigns/analyze *)
Definition analyzeCampaigns (body : RawCampaignBody)
    : Db -> Handled CampaignAnalysisResponse * Db :=
  fun db =>
    if negb (isTruthy (rc_startDate body))
       || negb (isTruthy (rc_endDate body))
    then (Json 400 (campaignFailure "startDate and endDate are required"),
          db)
    else
      match analyzeCampaigns new_Date getCampaignMetrics
              (asCampaignRequest body) db with
      | (Ok result, db') =>
          if cr_success result then (Json 200 result, db')
          else (Json 400 result, db')
      | (Thrown _, db') =>
          (Json 500 (campaignFailure "Internal server error"), db')
      end.

End Controller.

End CampaignController.

(** A repository that finds one campaign, and one that fails. *)
Definition fixture_getCampaignMetrics
    (startDate endDate : Z) (source medium campaign : option string)
    : Async (list CampaignMetrics) :=
  ret [ {| cm_utm_source := Some "google"; cm_utm_medium := Some "cpc";
           cm_utm_campaign := Some "winter_2025"; cm_totalUsers := 2;
           cm_firstViewUsers := 1; cm_conversionRate := 50%float |} ].

Definition failing_getCampaignMetrics
    (startDate endDate : Z) (source medium campaign : option string)
    : Async (list CampaignMetrics) :=
  throw "connection closed".

(** ** The step builder of the client
    (client/src/components/funnel-step-builder.tsx)

    Each handler is given as the list it passes to [onChange]. *)

Module FunnelStepBuilder.

Record FunnelStep := {
  id : string;
  step_name : string;
  step_matchType : string;
  step_matchValue : string
}.

(** [Partial<FunnelStep>]. *)
Record Updates := {
  new_id : option string;
  new_name : option string;
  new_matchType : option string;
  new_matchValue : option string
}.

Definition orElse (v : option string) (old : string) : string :=
  match v with Some s => s | None => old end.

(** [addStep], with [uuid] the value of [crypto.randomUUID()]. *)
Definition addStep (steps : list FunnelStep) (uuid : string)
    : list FunnelStep :=
  let newStep :=
    {| id := uuid;
       step_name := "Step " ++ string_of_Z (Z.of_nat (length steps + 1));
       step_matchType := "path";
       step_matchValue := EmptyString |} in
  steps ++ [newStep].

Definition removeStep (steps : list FunnelStep) (removed : string)
    : list FunnelStep :=
  filter (fun step => negb (id step =? removed)) steps.

Definition updateStep (steps : list FunnelStep) (updated : string)
    (updates : Updates) : list FunnelStep :=
  map (fun step =>
         if id step =? updated
         then {| id := orElse (new_id updates) (id step);
                 step_name := orElse (new_name updates) (step_name step);
                 step_matchType :=
                   orElse (new_matchType updates) (step_matchType step);
                 step_matchValue :=
                   orElse (new_matchValue updates) (step_matchValue step) |}
         else step)
      steps.

End FunnelStepBuilder.

(** ** The repository: one aggregation per resolved step *)

Lemma includes_In (us : list string) (u : string) :
  includes us u = true <-> In u us.
Proof.
  unfold includes. rewrite existsb_exists. split.
  - intros [x [Hx He]]. apply String.eqb_eq in He. now subst.
  - intros H. exists u. split; [assumption | apply String.eqb_refl].
Qed.

Lemma getUsersForStep_run step startDate endDate previousStepUsers db :
  getUsersForStep step startDate endDate previousStepUsers db
  = (Ok (stepUsers (collection db) step startDate endDate previousStepUsers),
     logged db (stepConditions step startDate endDate previousStepUsers)).
Proof.
  unfold getUsersForStep, stepUsers, bind, aggregate, ret, logged.
  fold (stepConditions step startDate endDate previousStepUsers).
  unfold stage_project, stage_group, stage_match.
  rewrite !map_map. cbn [group_id doc_user_id]. now rewrite map_id.
Qed.

Lemma stepConditions_matches step startDate endDate previousStepUsers ev :
  matches (stepConditions step startDate endDate previousStepUsers) ev = true
  <-> platform ev = "web" /\ type ev = "page_view"
      /\ candidateAllows previousStepUsers (user_id ev)
      /\ (startDate <= date ev <= endDate)%Z
      /\ (if matchType step =? "path"
          then path (content ev) = matchValue step
          else hostname (content ev) = matchValue step).
Proof.
  unfold stepConditions, matches, candidateAllows.
  destruct (matchType step =? "path");
    destruct previousStepUsers as [[|x us]|];
    cbn [length Nat.ltb Nat.leb set_user_id set_date set_content_path
         set_content_hostname mc_platform mc_type mc_user_id mc_date
         mc_content_path mc_content_hostname];
    rewrite ?andb_true_iff, ?includes_In, ?String.eqb_eq, ?Z.leb_le;
    tauto.
Qed.

Lemma stepUsers_NoDup events step startDate endDate previousStepUsers :
  NoDup (stepUsers events step startDate endDate previousStepUsers).
Proof. apply NoDup_nodup. Qed.

Lemma stepUsers_In events step startDate endDate previousStepUsers u :
  In u (stepUsers events step startDate endDate previousStepUsers)
  <-> exists ev,
        In ev events /\ user_id ev = u
        /\ platform ev = "web" /\ type ev = "page_view"
        /\ candidateAllows previousStepUsers u
        /\ (startDate <= date ev <= endDate)%Z
        /\ (if matchType step =? "path"
            then path (content ev) = matchValue step
            else hostname (content ev) = matchValue step).
Proof.
  unfold stepUsers. rewrite nodup_In, in_map_iff. split.
  - intros [ev [Hu Hev]]. apply filter_In in Hev as [Hin Hm].
    apply stepConditions_matches in Hm. exists ev. subst u. tauto.
  - intros [ev [Hin [Hu H]]]. exists ev. split; [assumption|].
    apply filter_In. split; [assumption|].
    apply stepConditions_matches. subst u. tauto.
Qed.

Lemma skipn_nth_error {A} (l : list A) (i : nat) (x : A) :
  nth_error l i = Some x -> skipn i l = x :: skipn (S i) l.
Proof.
  revert i. induction l as [|a l IH]; intros [|i] H; cbn in *;
    try discriminate.
  - now injection H as ->.
  - now apply IH.
Qed.

Lemma filterThroughSteps_run steps startDate endDate count :
  forall i us db,
    i + count <= length steps ->
    exists db',
      filterThroughSteps steps startDate endDate count i us db
      = (Ok (throughSteps (collection db) startDate endDate
               (firstn count (skipn i steps)) us), db')
      /\ collection db' = collection db.
Proof.
  induction count as [|count IH]; intros i us db Hle.
  - exists db. now split.
  - cbn [filterThroughSteps].
    destruct (nth_error steps i) as [currentStep|] eqn:E.
    2:{ apply nth_error_None in E. lia. }
    rewrite (skipn_nth_error _ _ _ E). cbn [firstn throughSteps].
    unfold bind. rewrite getUsersForStep_run.
    destruct (IH (S i)
                (stepUsers (collection db) currentStep startDate endDate
                   (Some us))
                (logged db (stepConditions currentStep startDate endDate
                              (Some us)))) as [db' [Hrun Hcoll]];
      [lia|].
    exists db'. split; assumption.
Qed.

Lemma getUsersCompletingSequentialSteps_run steps startDate endDate i db :
  i < length steps ->
  exists db',
    getUsersCompletingSequentialSteps steps (Z.of_nat i) startDate endDate db
    = (Ok (sequentialUsers (collection db) steps startDate endDate i), db')
    /\ collection db' = collection db.
Proof.
  intros Hlt. unfold getUsersCompletingSequentialSteps.
  replace ((Z.of_nat i <? 0)%Z || (Z.of_nat i >=? Z.of_nat (length steps))%Z)
    with false
    by (symmetry; apply orb_false_iff; split;
        [apply Z.ltb_ge | rewrite Z.geb_leb; apply Z.leb_gt]; lia).
  destruct steps as [|firstStep rest]; [cbn in Hlt; lia|].
  cbn [nth_error sequentialUsers].
  destruct i as [|i].
  - cbn [Z.of_nat Z.eqb firstn throughSteps].
    rewrite getUsersForStep_run. eexists. split; reflexivity.
  - replace (Z.of_nat (S i) =? 0)%Z with false
      by (symmetry; apply Z.eqb_neq; lia).
    rewrite Nat2Z.id. unfold bind. rewrite getUsersForStep_run.
    destruct (filterThroughSteps_run (firstStep :: rest) startDate endDate
                (S i) 1
                (stepUsers (collection db) firstStep startDate endDate None)
                (logged db (stepConditions firstStep startDate endDate None)))
      as [db' [Hrun Hcoll]]; [cbn in *; lia|].
    exists db'. split; assumption.
Qed.

(** ** The service: the loop and its result *)

Section ServiceFacts.

Variable new_Date : string -> option Z.

Lemma funnelLoop_run events steps startDate endDate count :
  let count_at j := length (sequentialUsers events steps startDate endDate j) in
  forall i db,
    collection db = events ->
    i + count = length steps ->
    exists db',
      funnelLoop steps startDate endDate count i
        (map (stepResultAt steps count_at) (seq 0 i))
        (if (i =? 0)%nat then 0 else count_at (i - 1)) db
      = (Ok (map (stepResultAt steps count_at) (seq 0 (length steps))), db')
      /\ collection db' = events.
Proof.
  intros count_at. induction count as [|count IH]; intros i db Hdb Hlen.
  - rewrite Nat.add_0_r in Hlen. subst i. exists db. now split.
  - cbn [funnelLoop]. unfold bind.
    destruct (getUsersCompletingSequentialSteps_run steps startDate endDate
                i db) as [db1 [Hrun Hcoll]]; [lia|].
    rewrite Hrun, Hdb. fold (count_at i). cbv zeta.
    destruct (IH (S i) db1) as [db' [Hloop Hcoll']]; [congruence | lia |].
    exists db'. split; [|assumption].
    rewrite <- Hloop. cbn [Nat.eqb]. rewrite seq_S, map_app.
    replace (S i - 1) with i by lia. cbn [map Nat.add].
    f_equal. f_equal. f_equal.
    unfold stepResultAt, percentage.
    destruct i as [|i]; [reflexivity|].
    cbn [Nat.eqb orb seq map nth_error users].
    reflexivity.
Qed.

Lemma analyzeFunnel_outcome request db :
  fst (analyzeFunnel new_Date request db)
  = analysisOf new_Date (collection db) request
  /\ collection (snd (analyzeFunnel new_Date request db)) = collection db.
Proof.
  unfold analyzeFunnel, analysisOf.
  destruct (steps request) as [|st0 rest] eqn:Hsteps; [now split|].
  cbn [length Nat.eqb].
  destruct (new_Date (startDate request)) as [startDateTime|];
    [|now split].
  destruct (new_Date (endDate request)) as [endDateTime|]; [|now split].
  destruct (funnelLoop_run (collection db) (st0 :: rest) startDateTime
              endDateTime (length (st0 :: rest)) 0 db eq_refl eq_refl)
    as [db' [Hrun Hcoll]].
  cbn [seq map Nat.eqb] in Hrun. unfold bind. cbn [length] in *.
  rewrite Hrun. cbn [fst snd ret]. now split.
Qed.

End ServiceFacts.

(** ** The resolver, [getUsersForStep] *)

Lemma getUsersForStep_query step startDate endDate previousStepUsers db :
  aggregations
    (snd (getUsersForStep step startDate endDate previousStepUsers db))
  = aggregations db
    ++ [stepConditions step startDate endDate previousStepUsers].
Proof. now rewrite getUsersForStep_run. Qed.

(** C3.  Empty-candidate fallthrough: with the empty array as
    [previousStepUsers], [getUsersForStep] issues the same aggregation and
    returns the same users as with no [previousStepUsers] at all; the
    [user_id] restriction is part of the [$match] only for a non-empty
    array. *)
Theorem getUsersForStep_empty_candidates_fallthrough
    (step : FunnelStepConfig) (startDate endDate : Z) (db : Db) :
  getUsersForStep step startDate endDate (Some []) db
  = getUsersForStep step startDate endDate None db
  /\ forall previousStepUsers,
       exists c,
         aggregations
           (snd (getUsersForStep step startDate endDate previousStepUsers db))
         = aggregations db ++ [c]
         /\ mc_user_id c = match previousStepUsers with
                           | Some (x :: us) => Some (x :: us)
                           | _ => None
                           end.
Proof.
  split; [reflexivity|].
  intros previousStepUsers. eexists. split.
  - apply getUsersForStep_query.
  - unfold stepConditions.
    destruct (matchType step =? "path");
      destruct previousStepUsers as [[|x us]|]; reflexivity.
Qed.

(** C4 is broken by the code.  Given the empty array as candidate set
    for the pricing step, [getUsersForStep] returns [user_1], who is not
    a member of that set: the users are not restricted to the candidate
    set that was provided. *)
Theorem getUsersForStep_empty_candidates_not_restricting :
  fst (getUsersForStep (pathStep "Pricing" "/pricing")
         1735689600000 1738367999000 (Some []) (db_of mockEvents))
  = Ok ["user_1"]
  /\ ~ (forall u,
          In u ["user_1"] <->
          restrictedTo (Some []) u
          /\ exists ev,
               In ev mockEvents /\ user_id ev = u
               /\ matchesStep (pathStep "Pricing" "/pricing")
                    1735689600000 1738367999000 ev).
Proof.
  split; [reflexivity|].
  intros H. destruct (proj1 (H "user_1")) as [Hin _].
  - now left.
  - exact Hin.
Qed.

(** What the resolver does for a candidate array that is absent or
    non-empty.  For a step whose [matchType] is ["path"] or ["hostname"],
    [getUsersForStep] then returns a duplicate-free list holding exactly
    the [user_id]s with at least one event of platform ["web"] and type
    ["page_view"], dated within [startDate, endDate] (both ends included),
    whose [content.path] (for ["path"]) or [content.hostname] (for
    ["hostname"]) is equal to [matchValue], restricted to the members of
    the candidate array when one is given. *)
Theorem getUsersForStep_characterization
    (step : FunnelStepConfig) (startDate endDate : Z)
    (previousStepUsers : option (list string)) (db : Db)
    (Htype : matchType step = "path" \/ matchType step = "hostname")
    (Hcandidates : previousStepUsers <> Some []) :
  exists us,
    fst (getUsersForStep step startDate endDate previousStepUsers db) = Ok us
    /\ NoDup us
    /\ forall u,
         In u us <->
         restrictedTo previousStepUsers u
         /\ exists ev,
              In ev (collection db) /\ user_id ev = u
              /\ matchesStep step startDate endDate ev.
Proof.
  rewrite getUsersForStep_run. eexists. split; [reflexivity|].
  split; [apply stepUsers_NoDup|].
  intros u. rewrite stepUsers_In. unfold matchesStep.
  assert (Hsame : candidateAllows previousStepUsers u
                  <-> restrictedTo previousStepUsers u).
  { destruct previousStepUsers as [[|x us]|]; [congruence | |];
      reflexivity. }
  rewrite <- Hsame.
  destruct (String.eqb_spec (matchType step) "path") as [Hp|Hp].
  - split.
    + intros [ev H]. split; [tauto|]. exists ev.
      repeat split; try tauto. intros Hh. congruence.
    + intros [Hc [ev H]]. exists ev. tauto.
  - assert (Hh : matchType step = "hostname") by tauto. split.
    + intros [ev H]. split; [tauto|]. exists ev.
      repeat split; try tauto.
    + intros [Hc [ev H]]. exists ev. tauto.
Qed.

Lemma getUsersForStep_characterization_witness :
  exists us,
    fst (getUsersForStep (pathStep "Pricing" "/pricing")
           1735689600000 1738367999000 (Some ["user_1"; "user_2"])
           (db_of mockEvents)) = Ok us
    /\ NoDup us
    /\ forall u,
         In u us <->
         restrictedTo (Some ["user_1"; "user_2"]) u
         /\ exists ev,
              In ev (collection (db_of mockEvents)) /\ user_id ev = u
              /\ matchesStep (pathStep "Pricing" "/pricing")
                   1735689600000 1738367999000 ev.
Proof.
  apply (getUsersForStep_characterization (pathStep "Pricing" "/pricing")).
  - left. reflexivity.
  - discriminate.
Defined.

(** C10.  A step whose [matchType] is any string other than ["path"] is
    matched on [content.hostname]: the [$match] carries
    ['content.hostname'] and no ['content.path'], and the users returned
    are those with a web page view in the window whose hostname is equal
    to [matchValue], whatever its path. *)
Theorem getUsersForStep_not_path_matches_hostname
    (step : FunnelStepConfig) (startDate endDate : Z)
    (previousStepUsers : option (list string)) (db : Db)
    (Hnot : matchType step <> "path") :
  (exists c,
     aggregations
       (snd (getUsersForStep step startDate endDate previousStepUsers db))
     = aggregations db ++ [c]
     /\ mc_content_hostname c = Some (matchValue step)
     /\ mc_content_path c = None)
  /\ exists us,
       fst (getUsersForStep step startDate endDate previousStepUsers db)
       = Ok us
       /\ forall u,
            In u us <->
            exists ev,
              In ev (collection db) /\ user_id ev = u
              /\ platform ev = "web" /\ type ev = "page_view"
              /\ candidateAllows previousStepUsers u
              /\ (startDate <= date ev <= endDate)%Z
              /\ hostname (content ev) = matchValue step.
Proof.
  apply String.eqb_neq in Hnot. split.
  - eexists. split; [apply getUsersForStep_query|].
    unfold stepConditions. rewrite Hnot.
    destruct previousStepUsers as [[|x us]|]; split; reflexivity.
  - rewrite getUsersForStep_run. eexists. split; [reflexivity|].
    intros u. rewrite stepUsers_In. rewrite Hnot. reflexivity.
Qed.

Lemma getUsersForStep_not_path_matches_hostname_witness :
  exists us,
    fst (getUsersForStep
           {| name := "Main Site"; matchType := "regex";
              matchValue := "www.trainwell.net" |}
           1735689600000 1738367999000 None (db_of mockEvents)) = Ok us
    /\ In "user_3" us.
Proof.
  destruct (getUsersForStep_not_path_matches_hostname
              {| name := "Main Site"; matchType := "regex";
                 matchValue := "www.trainwell.net" |}
              1735689600000 1738367999000 None (db_of mockEvents))
    as [_ [us [Hrun Hin]]].
  - discriminate.
  - exists us. split; [exact Hrun|].
    apply Hin. exists (mockPageView "e5" "user_3" "/signup" "www.trainwell.net").
    repeat split; try reflexivity; try (cbn; lia).
    cbn. auto 10.
Defined.

(** ** The orchestrator, [analyzeFunnel] *)

Lemma nth_error_map_seq {A} (f : nat -> A) (n : nat) :
  forall a i,
    nth_error (map f (seq a n)) i
    = if (i <? n)%nat then Some (f (a + i)) else None.
Proof.
  induction n as [|n IH]; intros a [|i]; cbn [seq map nth_error];
    try reflexivity.
  - now rewrite Nat.add_0_r.
  - rewrite IH. change (S i <? S n)%nat with (i <? n)%nat.
    now rewrite Nat.add_succ_r.
Qed.

Lemma stepResultsOf_nth events steps startDate endDate i r :
  nth_error (stepResultsOf events steps startDate endDate) i = Some r ->
  i < length steps
  /\ r = stepResultAt steps
           (fun j => length (sequentialUsers events steps startDate endDate j))
           i.
Proof.
  unfold stepResultsOf. rewrite nth_error_map_seq.
  destruct (Nat.ltb_spec i (length steps)); [|discriminate].
  intros Hr. injection Hr as <-. now split.
Qed.

Lemma stepResultsOf_at events steps startDate endDate i :
  i < length steps ->
  nth_error (stepResultsOf events steps startDate endDate) i
  = Some (stepResultAt steps
            (fun j => length (sequentialUsers events steps startDate endDate j))
            i).
Proof.
  intros H. unfold stepResultsOf. rewrite nth_error_map_seq.
  apply Nat.ltb_lt in H. now rewrite H.
Qed.

Lemma stepResultsOf_length events steps startDate endDate :
  length (stepResultsOf events steps startDate endDate) = length steps.
Proof. unfold stepResultsOf. now rewrite length_map, length_seq. Qed.

Section Orchestrator.

Variable new_Date : string -> option Z.

Lemma analyzeFunnel_Ok_inv request db result :
  fst (analyzeFunnel new_Date request db) = Ok result ->
  exists startDateTime endDateTime,
    steps request <> []
    /\ new_Date (startDate request) = Some startDateTime
    /\ new_Date (endDate request) = Some endDateTime
    /\ result_steps result
       = stepResultsOf (collection db) (steps request)
           startDateTime endDateTime
    /\ summary result = summarize (result_steps result).
Proof.
  rewrite (proj1 (analyzeFunnel_outcome new_Date request db)).
  unfold analysisOf.
  destruct (steps request) as [|st0 rest]; [discriminate|].
  destruct (new_Date (startDate request)) as [s|]; [|discriminate].
  destruct (new_Date (endDate request)) as [e|]; [|discriminate].
  intros H. injection H as <-. exists s, e. cbn.
  repeat split; congruence.
Qed.

(** C5.  In every result of [analyzeFunnel] there is one entry per step;
    the entry of step 0 has [stepConversionRate = 100] and
    [dropoffRate = 0]; the entry of a later step has
    [stepConversionRate = 100] when the step before has no users and
    [users(i) / users(i-1) * 100] otherwise, and
    [dropoffRate = 100 - stepConversionRate]. *)
Theorem analyzeFunnel_step_rates
    (request : FunnelAnalysisRequest) (db : Db)
    (result : FunnelAnalysisResult)
    (Hrun : fst (analyzeFunnel new_Date request db) = Ok result) :
  length (result_steps result) = length (steps request)
  /\ forall i r,
       nth_error (result_steps result) i = Some r ->
       match i with
       | O => stepConversionRate r = 100%float /\ dropoffRate r = 0%float
       | S j =>
           exists p,
             nth_error (result_steps result) j = Some p
             /\ stepConversionRate r
                = (if (users p =? 0)%nat then 100%float
                   else percentage (users r) (users p))
             /\ dropoffRate r = PrimFloat.sub 100%float (stepConversionRate r)
       end.
Proof.
  destruct (analyzeFunnel_Ok_inv _ _ _ Hrun)
    as [s [e [_ [_ [_ [Hsteps _]]]]]].
  rewrite Hsteps. split; [apply stepResultsOf_length|].
  intros i r Hr. apply stepResultsOf_nth in Hr as [Hi ->].
  destruct i as [|j].
  - now split.
  - eexists. split; [apply stepResultsOf_at; lia|].
    cbn [stepResultAt users stepConversionRate dropoffRate Nat.eqb orb].
    replace (S j - 1) with j by lia. now split.
Qed.

(** C7.  In every result of [analyzeFunnel], [totalUsers] is the user
    count of the first step, [completedUsers] that of the last step,
    [overallConversionRate] is [completedUsers / totalUsers * 100], or 0
    when [totalUsers] is 0, and [avgStepConversionRate] is the arithmetic
    mean of [stepConversionRate] over the steps after the first, or 100
    when the funnel has one step. *)
Theorem analyzeFunnel_summary
    (request : FunnelAnalysisRequest) (db : Db)
    (result : FunnelAnalysisResult)
    (Hrun : fst (analyzeFunnel new_Date request db) = Ok result) :
  exists firstResult lastResult,
    nth_error (result_steps result) 0 = Some firstResult
    /\ nth_error (result_steps result) (length (steps request) - 1)
       = Some lastResult
    /\ totalUsers (summary result) = users firstResult
    /\ completedUsers (summary result) = users lastResult
    /\ overallConversionRate (summary result)
       = (if (totalUsers (summary result) =? 0)%nat then 0%float
          else percentage (completedUsers (summary result))
                 (totalUsers (summary result)))
    /\ avgStepConversionRate (summary result)
       = (if (length (steps request) =? 1)%nat then 100%float
          else arithmeticMean
                 (map stepConversionRate (tl (result_steps result)))).
Proof.
  destruct (analyzeFunnel_Ok_inv _ _ _ Hrun)
    as [s [e [Hne [_ [_ [Hsteps Hsum]]]]]].
  pose proof (stepResultsOf_length (collection db) (steps request) s e)
    as Hlen.
  rewrite <- Hsteps in Hlen. rewrite Hsum.
  destruct (result_steps result) as [|r0 rs] eqn:Hrs.
  { destruct (steps request); [congruence | discriminate]. }
  rewrite <- Hlen. cbn [length Nat.sub]. rewrite Nat.sub_0_r.
  destruct (nth_error (r0 :: rs) (length rs)) as [rl|] eqn:Hlast.
  2:{ apply nth_error_None in Hlast. cbn in Hlast. lia. }
  exists r0, rl. unfold summarize.
  cbn [nth_error length totalUsers completedUsers overallConversionRate
       avgStepConversionRate skipn tl].
  rewrite Hlast. repeat split.
  - unfold percentage. now destruct (users r0).
  - rewrite length_map. unfold arithmeticMean. rewrite length_map.
    now destruct rs.
Qed.

(** C8.  A request with no step fails with "At least one funnel step is
    required", and a request with steps whose [startDate] or [endDate]
    does not parse fails with "Invalid date format"; in both cases the
    database state is the one before the call: no aggregation has been
    issued. *)
Theorem analyzeFunnel_validation_fails_fast
    (request : FunnelAnalysisRequest) (db : Db)
    (Hinvalid : steps request = []
                \/ new_Date (startDate request) = None
                \/ new_Date (endDate request) = None) :
  analyzeFunnel new_Date request db
  = (Thrown match steps request with
            | [] => "At least one funnel step is required"
            | _ :: _ => "Invalid date format"
            end, db)
  /\ aggregations (snd (analyzeFunnel new_Date request db))
     = aggregations db.
Proof.
  assert (H : analyzeFunnel new_Date request db
              = (Thrown match steps request with
                        | [] => "At least one funnel step is required"
                        | _ :: _ => "Invalid date format"
                        end, db)).
  { unfold analyzeFunnel.
    destruct (steps request) as [|st0 rest]; [reflexivity|].
    cbn [length Nat.eqb].
    destruct Hinvalid as [H | [H | H]]; [discriminate | |]; rewrite H.
    - reflexivity.
    - now destruct (new_Date (startDate request)). }
  now rewrite H.
Qed.

(** C9.  [analyzeFunnel] leaves the collection as it found it, and a
    second call with the same request, made after the first, returns the
    same outcome: the same step list and summary, or the same error. *)
Theorem analyzeFunnel_idempotent
    (request : FunnelAnalysisRequest) (db : Db) :
  collection (snd (analyzeFunnel new_Date request db)) = collection db
  /\ fst (analyzeFunnel new_Date request
            (snd (analyzeFunnel new_Date request db)))
     = fst (analyzeFunnel new_Date request db).
Proof.
  destruct (analyzeFunnel_outcome new_Date request db) as [Hout Hcoll].
  split; [exact Hcoll|].
  rewrite (proj1 (analyzeFunnel_outcome new_Date request _)).
  now rewrite Hcoll, Hout.
Qed.

End Orchestrator.

(** ** The chain of candidate sets *)

Lemma specStepMatches_matches step startDate endDate candidateUsers ev :
  matchType step = "path" \/ matchType step = "hostname" ->
  candidateUsers <> Some [] ->
  specStepMatches step startDate endDate candidateUsers ev
  = matches (stepConditions step startDate endDate candidateUsers) ev.
Proof.
  intros Htype Hne. unfold specStepMatches, matches, stepConditions.
  assert (Hcand :
    match candidateUsers with
    | Some us => includes us (user_id ev)
    | None => true
    end
    = match mc_user_id
              match candidateUsers with
              | Some us =>
                  if (0 <? length us)%nat
                  then set_user_id
                         {| mc_platform := "web"; mc_type := "page_view";
                            mc_user_id := None; mc_date := None;
                            mc_content_path := None;
                            mc_content_hostname := None |} us
                  else {| mc_platform := "web"; mc_type := "page_view";
                          mc_user_id := None; mc_date := None;
                          mc_content_path := None;
                          mc_content_hostname := None |}
              | None => {| mc_platform := "web"; mc_type := "page_view";
                           mc_user_id := None; mc_date := None;
                           mc_content_path := None;
                           mc_content_hostname := None |}
              end with
      | Some us => includes us (user_id ev)
      | None => true
      end).
  { destruct candidateUsers as [[|x us]|]; [congruence | |]; reflexivity. }
  rewrite Hcand.
  destruct Htype as [Ht|Ht]; rewrite Ht; cbn [String.eqb Ascii.eqb Bool.eqb];
    destruct candidateUsers as [[|x us]|];
    cbn [length Nat.ltb Nat.leb set_user_id set_date set_content_path
         set_content_hostname mc_platform mc_type mc_user_id mc_date
         mc_content_path mc_content_hostname andb orb];
    try congruence;
    destruct (platform ev =? "web"), (type ev =? "page_view"),
      (startDate <=? date ev)%Z, (date ev <=? endDate)%Z;
    cbn [andb orb]; rewrite ?andb_true_r, ?andb_false_r, ?orb_false_r;
    try reflexivity;
    match goal with
    | |- context [includes ?l ?u] => destruct (includes l u)
    end;
    cbn [andb]; rewrite ?andb_true_r, ?andb_false_r; reflexivity.
Qed.

Lemma specResolveStepUsers_stepUsers events step startDate endDate
    candidateUsers :
  matchType step = "path" \/ matchType step = "hostname" ->
  candidateUsers <> Some [] ->
  specResolveStepUsers events step startDate endDate candidateUsers
  = stepUsers events step startDate endDate candidateUsers.
Proof.
  intros Htype Hne. unfold specResolveStepUsers, stepUsers.
  f_equal. f_equal. apply filter_ext. intros ev.
  now apply specStepMatches_matches.
Qed.

Lemma specResolveFrom_next events startDate endDate rest :
  forall candidates i st c,
    nth_error rest (S i) = Some st ->
    nth_error (specResolveFrom events startDate endDate rest candidates) i
    = Some c ->
    nth_error (specResolveFrom events startDate endDate rest candidates) (S i)
    = Some (specResolveStepUsers events st startDate endDate (Some c)).
Proof.
  induction rest as [|a rest IH]; intros candidates i st c Hst Hc;
    [discriminate|].
  cbn [specResolveFrom nth_error] in *. destruct i as [|i].
  - injection Hc as <-. destruct rest as [|b rest]; [discriminate|].
    cbn in Hst. injection Hst as ->. reflexivity.
  - now apply IH.
Qed.

Lemma specCandidates_next events steps startDate endDate i st c :
  nth_error steps (S i) = Some st ->
  nth_error (specCandidates events steps startDate endDate) i = Some c ->
  nth_error (specCandidates events steps startDate endDate) (S i)
  = Some (specResolveStepUsers events st startDate endDate (Some c)).
Proof.
  destruct steps as [|st0 rest]; [discriminate|].
  cbn [specCandidates nth_error]. intros Hst Hc. destruct i as [|i].
  - injection Hc as <-. destruct rest as [|b rest]; [discriminate|].
    cbn in Hst. injection Hst as ->. reflexivity.
  - now apply specResolveFrom_next.
Qed.

(** C6 is broken by the code.  No user saw [/careers].  The fold of the
    specification passes the empty set of step 0 on as the candidate
    set, so the later sets are empty as well; the code, which starts
    again from step 0 for every index, lifts the restriction once the set
    is empty and resolves [user_1] for index 1, and [analyzeFunnel]
    reports one user there. *)
Theorem analyzeFunnel_departs_from_incremental_fold :
  specCandidates mockEvents
    [pathStep "Careers" "/careers"; pathStep "Pricing" "/pricing";
     pathStep "Signup" "/signup"] 1735689600000 1738367999000
  = [[]; []; []]
  /\ fst (getUsersCompletingSequentialSteps
            [pathStep "Careers" "/careers"; pathStep "Pricing" "/pricing";
             pathStep "Signup" "/signup"]
            1 1735689600000 1738367999000 (db_of mockEvents))
     = Ok ["user_1"]
  /\ exists result,
       fst (analyzeFunnel fixture_Date
              (mockRequest [pathStep "Careers" "/careers";
                            pathStep "Pricing" "/pricing";
                            pathStep "Signup" "/signup"])
              (db_of mockEvents)) = Ok result
       /\ map users (result_steps result) = [0; 1; 0].
Proof.
  split; [reflexivity|]. split; [reflexivity|].
  eexists. split; [vm_compute; reflexivity | reflexivity].
Qed.

(** C1 is broken by the code.  No user saw [/careers], so step 0 has no
    user and the empty array is handed to [getUsersForStep] for step 1,
    which then applies no restriction: step 1 counts [user_1], more users
    than step 0. *)
Theorem analyzeFunnel_not_monotone_after_empty_step :
  exists result,
    fst (analyzeFunnel fixture_Date
           (mockRequest [pathStep "Careers" "/careers";
                         pathStep "Pricing" "/pricing";
                         pathStep "Signup" "/signup"])
           (db_of mockEvents)) = Ok result
    /\ map users (result_steps result) = [0; 1; 0]
    /\ fst (getUsersCompletingSequentialSteps
              [pathStep "Careers" "/careers"; pathStep "Pricing" "/pricing";
               pathStep "Signup" "/signup"]
              1 1735689600000 1738367999000 (db_of mockEvents))
       = Ok ["user_1"].
Proof.
  eexists. split; [vm_compute; reflexivity|]. split; reflexivity.
Qed.

(** C2 is broken by the code.  With no user at step 0, every
    [conversionRate] is 0 as stated, but step 1 still has one user. *)
Theorem analyzeFunnel_users_after_zero_user_first_step :
  exists result,
    fst (analyzeFunnel fixture_Date
           (mockRequest [pathStep "Careers" "/careers";
                         pathStep "Pricing" "/pricing"])
           (db_of mockEvents)) = Ok result
    /\ map users (result_steps result) = [0; 1]
    /\ map conversionRate (result_steps result) = [0%float; 0%float].
Proof.
  eexists. split; [vm_compute; reflexivity|]. split; reflexivity.
Qed.

(** *** What does hold of the chain

    A step resolved against a non-empty candidate array keeps a subset of
    it, so the user counts can only grow after a step without users. *)

Lemma throughSteps_app events startDate endDate l l' us :
  throughSteps events startDate endDate (l ++ l') us
  = throughSteps events startDate endDate l'
      (throughSteps events startDate endDate l us).
Proof.
  revert us. induction l as [|st l IH]; intros us; cbn; [reflexivity|].
  apply IH.
Qed.

Lemma firstn_S_nth_error {A} (l : list A) (i : nat) (x : A) :
  nth_error l i = Some x -> firstn (S i) l = firstn i l ++ [x].
Proof.
  revert i. induction l as [|a l IH]; intros [|i] H; cbn in *;
    try discriminate.
  - now injection H as ->.
  - f_equal. now apply IH.
Qed.

Lemma stepUsers_incl events step startDate endDate us :
  us <> [] ->
  incl (stepUsers events step startDate endDate (Some us)) us.
Proof.
  intros Hne u Hu. apply stepUsers_In in Hu as [ev H].
  destruct us as [|x us]; [congruence|].
  destruct H as (_ & _ & _ & _ & Hc & _). exact Hc.
Qed.

Lemma sequentialUsers_shrink events steps startDate endDate i :
  S i < length steps ->
  sequentialUsers events steps startDate endDate i <> [] ->
  incl (sequentialUsers events steps startDate endDate (S i))
       (sequentialUsers events steps startDate endDate i)
  /\ length (sequentialUsers events steps startDate endDate (S i))
     <= length (sequentialUsers events steps startDate endDate i).
Proof.
  intros Hi Hne. destruct steps as [|firstStep rest]; [cbn in Hi; lia|].
  cbn [sequentialUsers length] in *.
  destruct (nth_error rest i) as [st|] eqn:E.
  2:{ apply nth_error_None in E. lia. }
  rewrite (firstn_S_nth_error _ _ _ E), throughSteps_app.
  cbn [throughSteps].
  assert (Hincl := stepUsers_incl events st startDate endDate _ Hne).
  split; [exact Hincl|].
  apply NoDup_incl_length; [apply stepUsers_NoDup | exact Hincl].
Qed.

Lemma analyzeFunnel_monotone_after_nonempty_step
    new_Date request db result i p r :
  fst (analyzeFunnel new_Date request db) = Ok result ->
  nth_error (result_steps result) i = Some p ->
  nth_error (result_steps result) (S i) = Some r ->
  users p <> 0 ->
  users r <= users p.
Proof.
  intros Hrun Hp Hr Hne.
  destruct (analyzeFunnel_Ok_inv _ _ _ _ Hrun)
    as [s [e [_ [_ [_ [Hsteps _]]]]]].
  rewrite Hsteps in Hp, Hr.
  apply stepResultsOf_nth in Hp as [_ ->].
  apply stepResultsOf_nth in Hr as [Hi ->].
  cbn [users stepResultAt] in *.
  apply sequentialUsers_shrink; [assumption|].
  intros Hnil. now rewrite Hnil in Hne.
Qed.

Lemma analyzeFunnel_conversionRate_zero
    new_Date request db result firstResult :
  fst (analyzeFunnel new_Date request db) = Ok result ->
  nth_error (result_steps result) 0 = Some firstResult ->
  users firstResult = 0 ->
  forall i r,
    nth_error (result_steps result) i = Some r -> conversionRate r = 0%float.
Proof.
  intros Hrun H0 Hzero i r Hr.
  destruct (analyzeFunnel_Ok_inv _ _ _ _ Hrun)
    as [s [e [_ [_ [_ [Hsteps _]]]]]].
  rewrite Hsteps in H0, Hr.
  apply stepResultsOf_nth in H0 as [_ ->].
  apply stepResultsOf_nth in Hr as [_ ->].
  cbn [users conversionRate stepResultAt] in *. now rewrite Hzero.
Qed.

(** ** Instances on the fixtures *)

Lemma analyzeFunnel_step_rates_witness :
  exists result,
    fst (analyzeFunnel fixture_Date
           (mockRequest [pathStep "Homepage" "/homepage";
                         pathStep "Pricing" "/pricing";
                         pathStep "Signup" "/signup"])
           (db_of mockEvents)) = Ok result
    /\ length (result_steps result) = 3
    /\ forall i r,
         nth_error (result_steps result) i = Some r ->
         match i with
         | O => stepConversionRate r = 100%float /\ dropoffRate r = 0%float
         | S j =>
             exists p,
               nth_error (result_steps result) j = Some p
               /\ stepConversionRate r
                  = (if (users p =? 0)%nat then 100%float
                     else percentage (users r) (users p))
               /\ dropoffRate r
                  = PrimFloat.sub 100%float (stepConversionRate r)
         end.
Proof.
  eexists. split; [vm_compute; reflexivity|].
  apply (analyzeFunnel_step_rates fixture_Date
           (mockRequest [pathStep "Homepage" "/homepage";
                         pathStep "Pricing" "/pricing";
                         pathStep "Signup" "/signup"])
           (db_of mockEvents)).
  vm_compute. reflexivity.
Defined.

Lemma analyzeFunnel_summary_witness :
  exists result firstResult lastResult,
    fst (analyzeFunnel fixture_Date
           (mockRequest [pathStep "Homepage" "/homepage";
                         pathStep "Pricing" "/pricing"])
           (db_of mockEvents)) = Ok result
    /\ nth_error (result_steps result) 0 = Some firstResult
    /\ nth_error (result_steps result) 1 = Some lastResult
    /\ totalUsers (summary result) = users firstResult
    /\ completedUsers (summary result) = users lastResult
    /\ overallConversionRate (summary result)
       = (if (totalUsers (summary result) =? 0)%nat then 0%float
          else percentage (completedUsers (summary result))
                 (totalUsers (summary result)))
    /\ avgStepConversionRate (summary result)
       = arithmeticMean (map stepConversionRate (tl (result_steps result))).
Proof.
  eexists.
  destruct (analyzeFunnel_summary fixture_Date
              (mockRequest [pathStep "Homepage" "/homepage";
                            pathStep "Pricing" "/pricing"])
              (db_of mockEvents) _ eq_refl)
    as [firstResult [lastResult H]].
  exists firstResult, lastResult. split; [reflexivity|]. exact H.
Defined.

Lemma analyzeFunnel_validation_fails_fast_witness :
  analyzeFunnel fixture_Date (mockRequest []) (db_of mockEvents)
  = (Thrown "At least one funnel step is required", db_of mockEvents)
  /\ analyzeFunnel fixture_Date
       {| steps := [pathStep "Homepage" "/"];
          startDate := "not-a-date";
          endDate := "2025-01-31T23:59:59Z" |} (db_of mockEvents)
     = (Thrown "Invalid date format", db_of mockEvents).
Proof.
  split.
  - apply (analyzeFunnel_validation_fails_fast fixture_Date (mockRequest [])).
    left. reflexivity.
  - apply (analyzeFunnel_validation_fails_fast fixture_Date
             {| steps := [pathStep "Homepage" "/"];
                startDate := "not-a-date";
                endDate := "2025-01-31T23:59:59Z" |}).
    right. left. reflexivity.
Defined.

(** ** More on the repository's sequential resolution *)

(** X1.  [getUsersCompletingSequentialSteps] rejects an index below 0 or not
    below [steps.length] with "Invalid step index: <index>", before any
    aggregation; with no step at all every index is rejected. *)
Theorem getUsersCompletingSequentialSteps_invalid_index
    (steps : list FunnelStepConfig) (stepIndex startDate endDate : Z)
    (db : Db)
    (Hbad : (stepIndex < 0 \/ Z.of_nat (length steps) <= stepIndex)%Z) :
  getUsersCompletingSequentialSteps steps stepIndex startDate endDate db
  = (Thrown ("Invalid step index: " ++ string_of_Z stepIndex), db).
Proof.
  unfold getUsersCompletingSequentialSteps.
  replace ((stepIndex <? 0)%Z || (stepIndex >=? Z.of_nat (length steps))%Z)
    with true; [reflexivity|].
  symmetry. apply orb_true_iff. rewrite Z.ltb_lt, Z.geb_leb, Z.leb_le.
  exact Hbad.
Qed.

Lemma getUsersCompletingSequentialSteps_invalid_index_witness :
  getUsersCompletingSequentialSteps [pathStep "Homepage" "/homepage"] 5
    1735689600000 1738367999000 (db_of mockEvents)
  = (Thrown "Invalid step index: 5", db_of mockEvents).
Proof.
  apply (getUsersCompletingSequentialSteps_invalid_index
           [pathStep "Homepage" "/homepage"] 5).
  right. cbn. lia.
Defined.

Lemma filterThroughSteps_queries steps startDate endDate count :
  forall i us db,
    i + count <= length steps ->
    length (aggregations
              (snd (filterThroughSteps steps startDate endDate count i us db)))
    = length (aggregations db) + count.
Proof.
  induction count as [|count IH]; intros i us db Hle.
  - cbn. lia.
  - cbn [filterThroughSteps].
    destruct (nth_error steps i) as [currentStep|] eqn:E.
    2:{ apply nth_error_None in E. lia. }
    unfold bind. rewrite getUsersForStep_run. rewrite IH by lia.
    cbn [logged aggregations]. rewrite length_app. cbn. lia.
Qed.

(** X2.  For a valid index [i], [getUsersCompletingSequentialSteps] issues
    [i + 1] aggregations: it resolves every step from step 0 up to step
    [i] again. *)
Theorem getUsersCompletingSequentialSteps_query_count
    (steps : list FunnelStepConfig) (i : nat) (startDate endDate : Z)
    (db : Db) (Hi : i < length steps) :
  length (aggregations
            (snd (getUsersCompletingSequentialSteps steps (Z.of_nat i)
                    startDate endDate db)))
  = length (aggregations db) + (i + 1).
Proof.
  unfold getUsersCompletingSequentialSteps.
  replace ((Z.of_nat i <? 0)%Z || (Z.of_nat i >=? Z.of_nat (length steps))%Z)
    with false
    by (symmetry; apply orb_false_iff; split;
        [apply Z.ltb_ge | rewrite Z.geb_leb; apply Z.leb_gt]; lia).
  destruct steps as [|firstStep rest]; [cbn in Hi; lia|].
  cbn [nth_error]. destruct i as [|i].
  - cbn [Z.of_nat Z.eqb]. rewrite getUsersForStep_run.
    cbn [snd logged aggregations]. rewrite length_app. cbn. lia.
  - replace (Z.of_nat (S i) =? 0)%Z with false
      by (symmetry; apply Z.eqb_neq; lia).
    rewrite Nat2Z.id. unfold bind. rewrite getUsersForStep_run.
    rewrite filterThroughSteps_queries by (cbn in *; lia).
    cbn [logged aggregations]. rewrite length_app. cbn. lia.
Qed.

Lemma getUsersCompletingSequentialSteps_query_count_witness :
  length (aggregations
            (snd (getUsersCompletingSequentialSteps
                    [pathStep "Homepage" "/homepage";
                     pathStep "Pricing" "/pricing";
                     pathStep "Signup" "/signup"] 2
                    1735689600000 1738367999000 (db_of mockEvents))))
  = 0 + (2 + 1).
Proof.
  apply (getUsersCompletingSequentialSteps_query_count
           [pathStep "Homepage" "/homepage"; pathStep "Pricing" "/pricing";
            pathStep "Signup" "/signup"] 2).
  cbn. lia.
Defined.

Lemma funnelLoop_queries steps startDate endDate count :
  forall i stepResults previousUsers db,
    i + count = length steps ->
    2 * length (aggregations
                  (snd (funnelLoop steps startDate endDate count i
                          stepResults previousUsers db)))
    + i * (i + 1)
    = 2 * length (aggregations db) + length steps * (length steps + 1).
Proof.
  induction count as [|count IH];
    intros i stepResults previousUsers db Hlen.
  - rewrite Nat.add_0_r in Hlen. subst i. cbn [funnelLoop ret snd]. lia.
  - cbn [funnelLoop]. unfold bind.
    pose proof (getUsersCompletingSequentialSteps_query_count steps i
                  startDate endDate db ltac:(lia)) as Hq.
    destruct (getUsersCompletingSequentialSteps_run steps startDate endDate
                i db ltac:(lia)) as [db1 [Hrun _]].
    rewrite Hrun in *. cbn [snd] in Hq. cbv zeta.
    match goal with
    | |- context [funnelLoop _ _ _ count (S i) ?acc ?prev db1] =>
        specialize (IH (S i) acc prev db1 ltac:(lia))
    end.
    nia.
Qed.

(** X3.  A funnel of [n] steps costs [n (n + 1) / 2] aggregations: step [i] is
    resolved [n - i] times over the analysis. *)
Theorem analyzeFunnel_query_count
    (new_Date : string -> option Z) (request : FunnelAnalysisRequest)
    (db : Db) (result : FunnelAnalysisResult)
    (Hrun : fst (analyzeFunnel new_Date request db) = Ok result) :
  2 * length (aggregations (snd (analyzeFunnel new_Date request db)))
  = 2 * length (aggregations db)
    + length (steps request) * (length (steps request) + 1).
Proof.
  unfold analyzeFunnel in *.
  destruct (length (steps request) =? 0)%nat; [discriminate|].
  destruct (new_Date (startDate request)) as [s|]; [|discriminate].
  destruct (new_Date (endDate request)) as [e|]; [|discriminate].
  pose proof (funnelLoop_queries (steps request) s e
                (length (steps request)) 0 [] 0 db eq_refl) as Hq.
  unfold bind in *.
  destruct (funnelLoop (steps request) s e (length (steps request)) 0 [] 0 db)
    as [[rs|msg] db']; cbn [fst snd ret] in *; [lia|discriminate].
Qed.

Lemma analyzeFunnel_query_count_witness :
  2 * length (aggregations
                (snd (analyzeFunnel fixture_Date
                        (mockRequest [pathStep "Homepage" "/homepage";
                                      pathStep "Pricing" "/pricing";
                                      pathStep "Signup" "/signup"])
                        (db_of mockEvents))))
  = 2 * 0 + 3 * (3 + 1).
Proof.
  destruct (fst (analyzeFunnel fixture_Date
                   (mockRequest [pathStep "Homepage" "/homepage";
                                 pathStep "Pricing" "/pricing";
                                 pathStep "Signup" "/signup"])
                   (db_of mockEvents))) as [result|msg] eqn:E.
  - exact (analyzeFunnel_query_count fixture_Date _ _ result E).
  - vm_compute in E. discriminate.
Defined.

Lemma sequentialUsers_next events steps startDate endDate i st :
  nth_error steps (S i) = Some st ->
  sequentialUsers events steps startDate endDate (S i)
  = stepUsers events st startDate endDate
      (Some (sequentialUsers events steps startDate endDate i)).
Proof.
  destruct steps as [|firstStep rest]; [discriminate|].
  cbn [nth_error sequentialUsers]. intros E.
  rewrite (firstn_S_nth_error _ _ _ E), throughSteps_app. reflexivity.
Qed.

(** The code follows the fold of the specification as long as no step
    resolves to an empty set: up to the first step without users, the
    set resolved for index [i] is the [i]-th set of the fold. *)
Lemma sequentialUsers_follows_spec_fold events steps startDate endDate i :
  Forall (fun st => matchType st = "path" \/ matchType st = "hostname")
    steps ->
  i < length steps ->
  (forall j, j < i ->
             sequentialUsers events steps startDate endDate j <> []) ->
  nth_error (specCandidates events steps startDate endDate) i
  = Some (sequentialUsers events steps startDate endDate i).
Proof.
  intros Htypes. induction i as [|i IH]; intros Hi Hne.
  - destruct steps as [|st0 rest]; [cbn in Hi; lia|].
    cbn [specCandidates sequentialUsers nth_error firstn throughSteps].
    f_equal. apply specResolveStepUsers_stepUsers; [|discriminate].
    now inversion Htypes.
  - destruct (nth_error steps (S i)) as [st|] eqn:Est.
    2:{ apply nth_error_None in Est. lia. }
    rewrite (specCandidates_next events steps startDate endDate i st
               (sequentialUsers events steps startDate endDate i) Est).
    + rewrite (sequentialUsers_next events steps startDate endDate i st Est).
      f_equal. apply specResolveStepUsers_stepUsers.
      * rewrite Forall_forall in Htypes. apply Htypes.
        eapply nth_error_In; eauto.
      * intros E. injection E as E. apply (Hne i); [lia | exact E].
    + apply IH; [lia|]. intros j Hj. apply Hne. lia.
Qed.

Lemma sequentialUsers_resolved events steps startDate endDate i st :
  nth_error steps i = Some st ->
  exists previousStepUsers,
    sequentialUsers events steps startDate endDate i
    = stepUsers events st startDate endDate previousStepUsers.
Proof.
  intros E. destruct i as [|i].
  - destruct steps as [|firstStep rest]; [discriminate|].
    injection E as ->. exists None. reflexivity.
  - eexists. apply sequentialUsers_next. exact E.
Qed.

Lemma sequentialUsers_accepts events steps startDate endDate i st u :
  nth_error steps i = Some st ->
  In u (sequentialUsers events steps startDate endDate i) ->
  exists ev,
    In ev events /\ user_id ev = u /\ stepAccepts st startDate endDate ev.
Proof.
  intros E Hu.
  destruct (sequentialUsers_resolved events steps startDate endDate i st E)
    as [previousStepUsers Heq].
  rewrite Heq in Hu. apply stepUsers_In in Hu as [ev H].
  exists ev. unfold stepAccepts. tauto.
Qed.

(** X4.  The users that [getUsersCompletingSequentialSteps] returns for index
    [i] come without duplicates, and each of them has a web page view in
    the window that step [i] itself accepts. *)
Theorem getUsersCompletingSequentialSteps_users_match_step
    (steps : list FunnelStepConfig) (i : nat) (st : FunnelStepConfig)
    (startDate endDate : Z) (db : Db)
    (Hst : nth_error steps i = Some st) :
  exists us,
    fst (getUsersCompletingSequentialSteps steps (Z.of_nat i)
           startDate endDate db) = Ok us
    /\ NoDup us
    /\ forall u,
         In u us ->
         exists ev,
           In ev (collection db) /\ user_id ev = u
           /\ stepAccepts st startDate endDate ev.
Proof.
  assert (Hi : i < length steps)
    by (apply nth_error_Some; congruence).
  destruct (getUsersCompletingSequentialSteps_run steps startDate endDate
              i db Hi) as [db' [Hrun _]].
  rewrite Hrun. eexists. split; [reflexivity|]. split.
  - destruct (sequentialUsers_resolved (collection db) steps startDate
                endDate i st Hst) as [previousStepUsers ->].
    apply stepUsers_NoDup.
  - intros u. apply sequentialUsers_accepts. exact Hst.
Qed.

Lemma getUsersCompletingSequentialSteps_users_match_step_witness :
  exists us,
    fst (getUsersCompletingSequentialSteps
           [pathStep "Homepage" "/homepage"; pathStep "Pricing" "/pricing"]
           1 1735689600000 1738367999000 (db_of mockEvents)) = Ok us
    /\ NoDup us
    /\ forall u,
         In u us ->
         exists ev,
           In ev mockEvents /\ user_id ev = u
           /\ stepAccepts (pathStep "Pricing" "/pricing")
                1735689600000 1738367999000 ev.
Proof.
  apply (getUsersCompletingSequentialSteps_users_match_step
           [pathStep "Homepage" "/homepage"; pathStep "Pricing" "/pricing"]
           1 (pathStep "Pricing" "/pricing")
           1735689600000 1738367999000 (db_of mockEvents)).
  reflexivity.
Defined.

(** X5.  The users of step [i + 1] are among the users of step [i], and no
    more numerous, as soon as step [i] has a user. *)
Theorem getUsersCompletingSequentialSteps_shrinks
    (steps : list FunnelStepConfig) (i : nat) (startDate endDate : Z)
    (db : Db) (Hi : S i < length steps) :
  exists previous next,
    fst (getUsersCompletingSequentialSteps steps (Z.of_nat i)
           startDate endDate db) = Ok previous
    /\ fst (getUsersCompletingSequentialSteps steps (Z.of_nat (S i))
              startDate endDate db) = Ok next
    /\ (previous <> [] ->
        incl next previous /\ length next <= length previous).
Proof.
  destruct (getUsersCompletingSequentialSteps_run steps startDate endDate
              i db ltac:(lia)) as [db1 [Hrun1 _]].
  destruct (getUsersCompletingSequentialSteps_run steps startDate endDate
              (S i) db Hi) as [db2 [Hrun2 _]].
  rewrite Hrun1, Hrun2. eexists. eexists.
  split; [reflexivity|]. split; [reflexivity|].
  apply sequentialUsers_shrink. exact Hi.
Qed.

Lemma getUsersCompletingSequentialSteps_shrinks_witness :
  exists previous next,
    fst (getUsersCompletingSequentialSteps
           [pathStep "Homepage" "/homepage"; pathStep "Pricing" "/pricing"]
           (Z.of_nat 0) 1735689600000 1738367999000 (db_of mockEvents))
    = Ok previous
    /\ fst (getUsersCompletingSequentialSteps
              [pathStep "Homepage" "/homepage"; pathStep "Pricing" "/pricing"]
              (Z.of_nat 1) 1735689600000 1738367999000 (db_of mockEvents))
       = Ok next
    /\ (previous <> [] ->
        incl next previous /\ length next <= length previous).
Proof.
  apply (getUsersCompletingSequentialSteps_shrinks
           [pathStep "Homepage" "/homepage"; pathStep "Pricing" "/pricing"]
           0 1735689600000 1738367999000 (db_of mockEvents)).
  cbn. lia.
Defined.

Lemma sequentialUsers_chain events steps startDate endDate i :
  i < length steps ->
  (forall j, j < i ->
             sequentialUsers events steps startDate endDate j <> []) ->
  forall j, j <= i ->
            incl (sequentialUsers events steps startDate endDate i)
                 (sequentialUsers events steps startDate endDate j).
Proof.
  induction i as [|i IH]; intros Hi Hne j Hj.
  - replace j with 0 by lia. apply incl_refl.
  - destruct (Nat.eq_dec j (S i)) as [->|Hneq]; [apply incl_refl|].
    apply incl_tran
      with (m := sequentialUsers events steps startDate endDate i).
    + apply sequentialUsers_shrink; [exact Hi | apply Hne; lia].
    + apply IH; [lia | intros k Hk; apply Hne; lia | lia].
Qed.

(** X6.  When every step before step [i] has at least one user, each user
    returned for index [i] has, for every step up to [i], a web page view
    in the window that the step accepts: the user completed all of
    them. *)
Theorem getUsersCompletingSequentialSteps_completed_all_steps
    (steps : list FunnelStepConfig) (i : nat) (startDate endDate : Z)
    (db : Db) (Hi : i < length steps)
    (Hnonempty :
       forall j, j < i ->
                 fst (getUsersCompletingSequentialSteps steps (Z.of_nat j)
                        startDate endDate db) <> Ok []) :
  exists us,
    fst (getUsersCompletingSequentialSteps steps (Z.of_nat i)
           startDate endDate db) = Ok us
    /\ forall u j st,
         In u us -> j <= i -> nth_error steps j = Some st ->
         exists ev,
           In ev (collection db) /\ user_id ev = u
           /\ stepAccepts st startDate endDate ev.
Proof.
  destruct (getUsersCompletingSequentialSteps_run steps startDate endDate
              i db Hi) as [db' [Hrun _]].
  rewrite Hrun. eexists. split; [reflexivity|].
  intros u j st Hu Hj Hst.
  apply (sequentialUsers_accepts (collection db) steps startDate endDate
           j st u Hst).
  apply (sequentialUsers_chain (collection db) steps startDate endDate i Hi);
    [|exact Hj|exact Hu].
  intros k Hk Hnil.
  destruct (getUsersCompletingSequentialSteps_run steps startDate endDate
              k db ltac:(lia)) as [dbk [Hrunk _]].
  apply (Hnonempty k Hk). rewrite Hrunk. cbn [fst]. now rewrite Hnil.
Qed.

Lemma getUsersCompletingSequentialSteps_completed_all_steps_witness :
  exists us,
    fst (getUsersCompletingSequentialSteps
           [pathStep "Homepage" "/homepage"; pathStep "Pricing" "/pricing"]
           (Z.of_nat 1) 1735689600000 1738367999000 (db_of mockEvents))
    = Ok us
    /\ forall u j st,
         In u us -> j <= 1 ->
         nth_error [pathStep "Homepage" "/homepage";
                    pathStep "Pricing" "/pricing"] j = Some st ->
         exists ev,
           In ev mockEvents /\ user_id ev = u
           /\ stepAccepts st 1735689600000 1738367999000 ev.
Proof.
  apply (getUsersCompletingSequentialSteps_completed_all_steps
           [pathStep "Homepage" "/homepage"; pathStep "Pricing" "/pricing"]
           1 1735689600000 1738367999000 (db_of mockEvents)).
  - cbn. lia.
  - intros j Hj. replace j with 0 by lia. cbn. discriminate.
Defined.

(** ** More on the funnel result *)

(** X7.  In a funnel result, [conversionRate] of every step is
    [users(i) / users(0) * 100], and 0 for every step when the first step
    has no user. *)
Theorem analyzeFunnel_conversion_rates
    (new_Date : string -> option Z) (request : FunnelAnalysisRequest)
    (db : Db) (result : FunnelAnalysisResult)
    (Hrun : fst (analyzeFunnel new_Date request db) = Ok result) :
  exists firstResult,
    nth_error (result_steps result) 0 = Some firstResult
    /\ forall i r,
         nth_error (result_steps result) i = Some r ->
         conversionRate r
         = (if (users firstResult =? 0)%nat then 0%float
            else percentage (users r) (users firstResult)).
Proof.
  destruct (analyzeFunnel_Ok_inv _ _ _ _ Hrun)
    as [s [e [Hne [_ [_ [Hsteps _]]]]]].
  rewrite Hsteps. eexists. split.
  - apply stepResultsOf_at. destruct (steps request); [congruence|cbn; lia].
  - intros i r Hr. apply stepResultsOf_nth in Hr as [_ ->].
    cbn [stepResultAt users conversionRate].
    now destruct (length (sequentialUsers (collection db) (steps request)
                            s e 0)).
Qed.

Lemma analyzeFunnel_conversion_rates_witness :
  exists result firstResult,
    fst (analyzeFunnel fixture_Date
           (mockRequest [pathStep "Homepage" "/homepage";
                         pathStep "Pricing" "/pricing"])
           (db_of mockEvents)) = Ok result
    /\ nth_error (result_steps result) 0 = Some firstResult
    /\ forall i r,
         nth_error (result_steps result) i = Some r ->
         conversionRate r
         = (if (users firstResult =? 0)%nat then 0%float
            else percentage (users r) (users firstResult)).
Proof.
  eexists.
  destruct (analyzeFunnel_conversion_rates fixture_Date
              (mockRequest [pathStep "Homepage" "/homepage";
                            pathStep "Pricing" "/pricing"])
              (db_of mockEvents) _ eq_refl) as [firstResult H].
  exists firstResult. split; [reflexivity|]. exact H.
Defined.

(** X8.  Entry [i] of a funnel result carries [stepIndex = i] and the [name]
    of step [i] of the request; the label "Unknown" is never produced. *)
Theorem analyzeFunnel_step_labels
    (new_Date : string -> option Z) (request : FunnelAnalysisRequest)
    (db : Db) (result : FunnelAnalysisResult)
    (Hrun : fst (analyzeFunnel new_Date request db) = Ok result) :
  forall i r,
    nth_error (result_steps result) i = Some r ->
    stepIndex r = i
    /\ exists st, nth_error (steps request) i = Some st /\ step r = name st.
Proof.
  destruct (analyzeFunnel_Ok_inv _ _ _ _ Hrun)
    as [s [e [_ [_ [_ [Hsteps _]]]]]].
  rewrite Hsteps. intros i r Hr.
  apply stepResultsOf_nth in Hr as [Hi ->].
  split; [reflexivity|].
  destruct (nth_error (steps request) i) as [st|] eqn:E.
  - exists st. split; [reflexivity|].
    cbn [stepResultAt step]. now rewrite E.
  - apply nth_error_None in E. lia.
Qed.

Lemma analyzeFunnel_step_labels_witness :
  exists result,
    fst (analyzeFunnel fixture_Date
           (mockRequest [pathStep "Homepage" "/homepage";
                         pathStep "Pricing" "/pricing"])
           (db_of mockEvents)) = Ok result
    /\ forall i r,
         nth_error (result_steps result) i = Some r ->
         stepIndex r = i
         /\ exists st,
              nth_error [pathStep "Homepage" "/homepage";
                         pathStep "Pricing" "/pricing"] i = Some st
              /\ step r = name st.
Proof.
  eexists. split; [reflexivity|].
  apply (analyzeFunnel_step_labels fixture_Date
           (mockRequest [pathStep "Homepage" "/homepage";
                         pathStep "Pricing" "/pricing"])
           (db_of mockEvents)).
  reflexivity.
Defined.

Lemma stepUsers_empty_window events step startDate endDate
    previousStepUsers :
  (endDate < startDate)%Z ->
  stepUsers events step startDate endDate previousStepUsers = [].
Proof.
  intros Hlt.
  destruct (stepUsers events step startDate endDate previousStepUsers)
    as [|u us] eqn:E; [reflexivity|].
  assert (Hu : In u (stepUsers events step startDate endDate
                       previousStepUsers))
    by (rewrite E; now left).
  apply stepUsers_In in Hu as [ev H].
  destruct H as (_ & _ & _ & _ & _ & Hd & _). lia.
Qed.

Lemma sequentialUsers_empty_window events steps startDate endDate i :
  (endDate < startDate)%Z ->
  i < length steps ->
  sequentialUsers events steps startDate endDate i = [].
Proof.
  intros Hlt Hi.
  destruct (nth_error steps i) as [st|] eqn:E.
  - destruct (sequentialUsers_resolved events steps startDate endDate i st E)
      as [previousStepUsers ->].
    now apply stepUsers_empty_window.
  - apply nth_error_None in E. lia.
Qed.

(** X9.  [analyzeFunnel] accepts a window whose start is after its end: the
    analysis succeeds, with one entry per step and no user at any step. *)
Theorem analyzeFunnel_reversed_window
    (new_Date : string -> option Z) (request : FunnelAnalysisRequest)
    (db : Db) (startDateTime endDateTime : Z)
    (Hsteps : steps request <> [])
    (Hstart : new_Date (startDate request) = Some startDateTime)
    (Hend : new_Date (endDate request) = Some endDateTime)
    (Hreversed : (endDateTime < startDateTime)%Z) :
  exists result,
    fst (analyzeFunnel new_Date request db) = Ok result
    /\ length (result_steps result) = length (steps request)
    /\ (forall r, In r (result_steps result) ->
                  users r = 0 /\ conversionRate r = 0%float)
    /\ totalUsers (summary result) = 0
    /\ completedUsers (summary result) = 0
    /\ overallConversionRate (summary result) = 0%float.
Proof.
  rewrite (proj1 (analyzeFunnel_outcome new_Date request db)).
  unfold analysisOf. rewrite Hstart, Hend.
  destruct (steps request) as [|st0 rest] eqn:E; [congruence|].
  rewrite <- E. eexists. split; [reflexivity|].
  cbn [result_steps summary].
  assert (Hzero : forall r,
            In r (stepResultsOf (collection db) (steps request)
                    startDateTime endDateTime) ->
            users r = 0 /\ conversionRate r = 0%float).
  { intros r Hr. apply In_nth_error in Hr as [i Hr].
    apply stepResultsOf_nth in Hr as [Hi ->].
    cbn [stepResultAt users conversionRate].
    rewrite !sequentialUsers_empty_window
      by (try assumption; rewrite E; cbn; lia).
    now split. }
  split; [apply stepResultsOf_length|]. split; [exact Hzero|].
  unfold summarize.
  cbn [totalUsers completedUsers overallConversionRate].
  assert (Hnth : forall i,
            match nth_error (stepResultsOf (collection db) (steps request)
                               startDateTime endDateTime) i with
            | Some r => users r
            | None => 0
            end = 0).
  { intros i.
    destruct (nth_error _ i) as [r|] eqn:Hr; [|reflexivity].
    apply nth_error_In in Hr. now apply Hzero. }
  rewrite (Hnth 0).
  destruct (length (stepResultsOf (collection db) (steps request)
                      startDateTime endDateTime)) as [|last];
    [now repeat split|].
  rewrite (Hnth last). now repeat split.
Qed.

Lemma analyzeFunnel_reversed_window_witness :
  exists result,
    fst (analyzeFunnel fixture_Date
           {| steps := [pathStep "Homepage" "/homepage"];
              startDate := "2025-01-31T23:59:59Z";
              endDate := "2025-01-01T00:00:00Z" |}
           (db_of mockEvents)) = Ok result
    /\ length (result_steps result) = 1
    /\ (forall r, In r (result_steps result) ->
                  users r = 0 /\ conversionRate r = 0%float)
    /\ totalUsers (summary result) = 0
    /\ completedUsers (summary result) = 0
    /\ overallConversionRate (summary result) = 0%float.
Proof.
  apply (analyzeFunnel_reversed_window fixture_Date
           {| steps := [pathStep "Homepage" "/homepage"];
              startDate := "2025-01-31T23:59:59Z";
              endDate := "2025-01-01T00:00:00Z" |}
           (db_of mockEvents) 1738367999000 1735689600000).
  - discriminate.
  - reflexivity.
  - reflexivity.
  - lia.
Defined.

Lemma filter_filter_implied {A} (f g : A -> bool) (l : list A) :
  (forall x, f x = true -> g x = true) ->
  filter f (filter g l) = filter f l.
Proof.
  intros Himp. induction l as [|a l IH]; [reflexivity|].
  cbn [filter]. destruct (g a) eqn:Hg.
  - cbn [filter]. now rewrite IH.
  - rewrite IH. destruct (f a) eqn:Hf; [|reflexivity].
    apply Himp in Hf. congruence.
Qed.

Lemma stepUsers_web_page_views events step startDate endDate
    previousStepUsers :
  stepUsers (filter isWebPageView events) step startDate endDate
    previousStepUsers
  = stepUsers events step startDate endDate previousStepUsers.
Proof.
  unfold stepUsers. rewrite filter_filter_implied; [reflexivity|].
  intros ev Hm. apply stepConditions_matches in Hm.
  unfold isWebPageView. apply andb_true_iff.
  split; apply String.eqb_eq; tauto.
Qed.

Lemma throughSteps_web_page_views events startDate endDate rest :
  forall us,
    throughSteps (filter isWebPageView events) startDate endDate rest us
    = throughSteps events startDate endDate rest us.
Proof.
  induction rest as [|st rest IH]; intros us; [reflexivity|].
  cbn [throughSteps]. now rewrite stepUsers_web_page_views, IH.
Qed.

(** X10.  Only web page views count: the outcome of [analyzeFunnel] is the one
    it has on the collection stripped of every event of another platform
    or another type. *)
Theorem analyzeFunnel_reads_web_page_views_only
    (new_Date : string -> option Z) (request : FunnelAnalysisRequest)
    (db : Db) :
  fst (analyzeFunnel new_Date request db)
  = fst (analyzeFunnel new_Date request
           {| collection := filter isWebPageView (collection db);
              aggregations := aggregations db |}).
Proof.
  rewrite !(proj1 (analyzeFunnel_outcome new_Date request _)).
  cbn [collection]. unfold analysisOf.
  destruct (steps request) as [|st0 rest] eqn:E; [reflexivity|].
  destruct (new_Date (startDate request)) as [s|]; [|reflexivity].
  destruct (new_Date (endDate request)) as [e|]; [|reflexivity].
  assert (Hsame : stepResultsOf (filter isWebPageView (collection db))
                    (st0 :: rest) s e
                  = stepResultsOf (collection db) (st0 :: rest) s e).
  { unfold stepResultsOf. apply map_ext_in. intros i _.
    assert (Hseq : forall j,
              sequentialUsers (filter isWebPageView (collection db))
                (st0 :: rest) s e j
              = sequentialUsers (collection db) (st0 :: rest) s e j).
    { intros j. cbn [sequentialUsers].
      now rewrite throughSteps_web_page_views, stepUsers_web_page_views. }
    unfold stepResultAt. now rewrite !Hseq. }
  now rewrite Hsame.
Qed.

(** ** The event repository and service: reading events *)





Lemma cursorPage_length {A} (limit skip : nat) (docs : list A) :
  length (cursorPage limit skip docs)
  = if (limit =? 0)%nat then length docs - skip
    else Nat.min limit (length docs - skip).
Proof.
  unfold cursorPage. destruct (limit =? 0)%nat.
  - apply length_skipn.
  - now rewrite length_firstn, length_skipn.
Qed.


Section EventFacts.

Variable toISOString : Z -> string.
Variable new_ObjectId : string -> Outcome string.

(** X12.  [getEvents] returns a page and a total.  The total does not depend
    on [limit] and [skip]; the page holds [min(limit, total - skip)]
    events, or all [total - skip] remaining ones when [limit] is 0. *)
Theorem getEvents_page_size
    (filters : EventQueryFilters) (limit skip : nat) (db : Db) :
  exists events total,
    getEvents toISOString filters limit skip db = (Ok (events, total), db)
    /\ length events
       = (if (limit =? 0)%nat then total - skip
          else Nat.min limit (total - skip))
    /\ forall limit' skip',
         exists events',
           getEvents toISOString filters limit' skip' db
           = (Ok (events', total), db).
Proof.
  eexists. eexists. split; [reflexivity|]. split.
  - unfold toDTOs. rewrite length_map. apply cursorPage_length.
  - intros limit' skip'. eexists. reflexivity.
Qed.

(** X14.  [getEventById] with a well-formed id: when the ObjectId is built,
    the answer is the DTO of the first web event with that [_id], or
    [null] when the collection has no web event with it; when the
    constructor throws, the error is "Failed to retrieve event". *)
Theorem getEventById_well_formed_id
    (id : string) (db : Db)
    (Hvalid : isValidObjectId id = true) :
  match new_ObjectId id with
  | Ok objectId =>
      exists answer,
        getEventById toISOString new_ObjectId id db = (Ok answer, db)
        /\ match answer with
           | Some dto =>
               exists ev,
                 In ev (collection db) /\ _id ev = objectId
                 /\ platform ev = "web" /\ dto = toDTO toISOString ev
           | None =>
               forall ev,
                 In ev (collection db) -> _id ev = objectId ->
                 platform ev <> "web"
           end
  | Thrown _ =>
      getEventById toISOString new_ObjectId id db
      = (Thrown "Failed to retrieve event", db)
  end.
Proof.
  unfold getEventById, rethrowAs, bind, findById. rewrite Hvalid.
  cbn [negb]. destruct (new_ObjectId id) as [objectId|message];
    [|reflexivity].
  destruct (find (fun e => (_id e =? objectId) && (platform e =? "web"))
              (collection db)) as [ev|] eqn:E.
  - eexists. split; [reflexivity|]. exists ev.
    apply find_some in E as [Hin Hm].
    apply andb_true_iff in Hm as [Hid Hp].
    apply String.eqb_eq in Hid, Hp. now repeat split.
  - eexists. split; [reflexivity|]. intros ev Hin Hid Hp.
    pose proof (find_none _ _ E ev Hin) as Hm. cbn in Hm.
    rewrite Hid, Hp, !String.eqb_refl in Hm. discriminate.
Qed.

End EventFacts.

Lemma getEventById_well_formed_id_witness :
  exists dto,
    getEventById fixture_toISOString fixture_ObjectId
      "507F1F77BCF86CD799439011" (db_of storedEvents)
    = (Ok (Some dto), db_of storedEvents)
    /\ dto_user_id dto = "user_1"
    /\ dto_date dto = "2025-01-15T10:00:00.000Z".
Proof.
  pose proof (getEventById_well_formed_id fixture_toISOString
                fixture_ObjectId "507F1F77BCF86CD799439011"
                (db_of storedEvents) eq_refl) as H.
  cbn in H. destruct H as [answer [Hrun _]].
  eexists. split; [reflexivity|]. split; reflexivity.
Defined.

(** ** The event controller *)

Lemma isTruthy_true (v : option string) :
  isTruthy v = true <-> exists s, v = Some s /\ s <> EmptyString.
Proof.
  unfold isTruthy, truthyString. destruct v as [s|].
  - destruct (String.eqb_spec s EmptyString) as [->|Hne]; split.
    + discriminate.
    + intros [s [E Hne]]. injection E as <-. congruence.
    + intros _. now exists s.
    + reflexivity.
  - split; [discriminate|]. intros [s [E _]]. discriminate.
Qed.

Lemma wellFormedStep_iff (st : RawStep) :
  wellFormedStep (Some st) <->
  isTruthy (raw_name st) = true
  /\ isTruthy (raw_matchType st) = true
  /\ isTruthy (raw_matchValue st) = true
  /\ (stringOr (raw_matchType st) = "path"
      \/ stringOr (raw_matchType st) = "hostname").
Proof.
  unfold wellFormedStep. rewrite !isTruthy_true. split.
  - intros [st' [E [Hn [Ht Hv]]]]. injection E as <-.
    split; [exact Hn|]. split.
    + destruct Ht as [Ht|Ht]; rewrite Ht; eexists;
        (split; [reflexivity | discriminate]).
    + split; [exact Hv|]. destruct Ht as [Ht|Ht]; rewrite Ht; cbn; auto.
  - intros [Hn [[t [Et Hne]] [Hv Ht]]]. exists st.
    split; [reflexivity|]. split; [exact Hn|].
    split; [|exact Hv]. rewrite Et in *. cbn [stringOr] in Ht.
    destruct Ht as [Ht|Ht]; rewrite Ht; auto.
Qed.

Lemma validateSteps_Pass (l : list (option RawStep)) :
  EventController.validateSteps l = EventController.StepsPass
  <-> Forall wellFormedStep l.
Proof.
  induction l as [|[st|] l IH]; cbn [EventController.validateSteps].
  - split; [constructor | reflexivity].
  - rewrite Forall_cons_iff, wellFormedStep_iff, <- IH.
    destruct (isTruthy (raw_name st)), (isTruthy (raw_matchType st)),
      (isTruthy (raw_matchValue st)); cbn [negb orb];
      try (split; [discriminate | intros [[? [? [? ?]]] ?]; discriminate]).
    destruct (String.eqb_spec (stringOr (raw_matchType st)) "path");
      destruct (String.eqb_spec (stringOr (raw_matchType st)) "hostname");
      cbn [negb andb];
      try (split; [intros H; repeat split; auto | intros [_ H]; exact H]).
    split; [discriminate|].
    intros [[_ [_ [_ [H|H]]]] _]; congruence.
  - split; [discriminate|]. intros H. inversion H as [|? ? [st [E _]] _].
    discriminate.
Qed.



Section ControllerFacts.

Variable new_Date : string -> option Z.
Variable toISOString : Z -> string.
Variable new_ObjectId : string -> Outcome string.
Variable parseInt : string -> option Z.
Variable nullStepError : string.

(** X15.  GET /api/v1/events/:id answers 400 "Event ID is required" without an
    id, and 404 "Event not found" for an id that is not 24 hexadecimal
    digits; in both cases nothing is looked up. *)
Theorem controller_getEventById_rejects
    (id : option string) (db : Db)
    (Hill : forall s, id = Some s -> isValidObjectId s = false) :
  EventController.getEventById toISOString new_ObjectId id db
  = (Json (if isTruthy id then 404 else 400)
       {| er_success := false; er_data := None;
          er_error := Some (if isTruthy id then "Event not found"
                            else "Event ID is required") |}, db).
Proof.
  unfold EventController.getEventById, isTruthy.
  destruct (truthyString id) as [s|] eqn:E; [|reflexivity].
  assert (Hid : id = Some s).
  { unfold truthyString in E. destruct id as [s'|]; [|discriminate].
    destruct (s' =? EmptyString); [discriminate|]. exact E. }
  unfold getEventById, rethrowAs. rewrite (Hill s Hid). reflexivity.
Qed.

(** X16.  GET /api/v1/events answers 200 with a page of at most [limit]
    events, where [limit] is between 1 and 1000 and [skip] between 0 and
    [Number.MAX_SAFE_INTEGER] whatever the query asks for; [count] is the
    size of the page and never exceeds [total]. *)
Theorem controller_getEvents_pagination
    (query : EventsQuery) (db : Db) :
  exists events page,
    EventController.getEvents new_Date toISOString parseInt query db
    = (Json 200 {| es_success := true; es_data := Some events;
                   es_pagination := Some page; es_error := None |}, db)
    /\ (1 <= pg_limit page <= 1000)%Z
    /\ (0 <= pg_skip page <= MAX_SAFE_INTEGER)%Z
    /\ pg_count page = length events
    /\ (Z.of_nat (pg_count page) <= pg_limit page)%Z
    /\ pg_count page <= pg_total page.
Proof.
  eexists. eexists. split; [reflexivity|].
  cbn [pg_limit pg_skip pg_count pg_total].
  set (limit := EventController.parseNumber parseInt (query_limit query)
                  100 1 1000).
  set (skip := EventController.parseNumber parseInt (query_skip query)
                 0 0 MAX_SAFE_INTEGER).
  assert (Hlimit : (1 <= limit <= 1000)%Z).
  { subst limit. unfold EventController.parseNumber.
    destruct (query_limit query) as [s|]; [|lia].
    destruct (parseInt s) as [n|]; [|lia].
    destruct (Z.leb_spec 1 n); destruct (Z.leb_spec n 1000);
      cbn [andb]; lia. }
  assert (Hskip : (0 <= skip <= MAX_SAFE_INTEGER)%Z).
  { subst skip. unfold EventController.parseNumber, MAX_SAFE_INTEGER.
    destruct (query_skip query) as [s|]; [|lia].
    destruct (parseInt s) as [n|]; [|lia].
    destruct (Z.leb_spec 0 n); destruct (Z.leb_spec n 9007199254740991);
      cbn [andb]; lia. }
  split; [exact Hlimit|]. split; [exact Hskip|]. split; [reflexivity|].
  unfold toDTOs. rewrite length_map, cursorPage_length.
  destruct (Nat.eqb_spec (Z.to_nat limit) 0); lia.
Qed.

(** X17.  A [limit] parameter that does not parse, or parses to a number below
    1 or above 1000, is replaced by 100: it is not clamped to the nearest
    bound. *)
Theorem controller_getEvents_limit_fallback
    (query : EventsQuery) (db : Db)
    (Hbad : match query_limit query with
            | Some s =>
                match parseInt s with
                | Some n => (n < 1 \/ 1000 < n)%Z
                | None => True
                end
            | None => True
            end) :
  exists events page,
    EventController.getEvents new_Date toISOString parseInt query db
    = (Json 200 {| es_success := true; es_data := Some events;
                   es_pagination := Some page; es_error := None |}, db)
    /\ pg_limit page = 100%Z
    /\ length events <= 100.
Proof.
  eexists. eexists. split; [reflexivity|]. cbn [pg_limit].
  assert (Hlimit : EventController.parseNumber parseInt (query_limit query)
                     100 1 1000 = 100%Z).
  { unfold EventController.parseNumber.
    destruct (query_limit query) as [s|]; [|reflexivity].
    destruct (parseInt s) as [n|]; [|reflexivity].
    destruct (Z.leb_spec 1 n); destruct (Z.leb_spec n 1000);
      cbn [andb]; lia. }
  rewrite Hlimit. split; [reflexivity|].
  unfold toDTOs. rewrite length_map, cursorPage_length.
  change (Z.to_nat 100) with 100. cbn [Nat.eqb]. lia.
Qed.


(** X19.  POST /api/v1/events/funnel with a valid body: when both dates parse,
    the answer is 200 with the result of the service, which only ever
    sees steps of match type "path" or "hostname"; when a date does not
    parse, the answer is 500 "Invalid date format", with the database
    state untouched. *)
Theorem controller_analyzeFunnel_valid_body
    (body : RawBody) (db : Db) (Hvalid : validBody body) :
  Forall (fun st => matchType st = "path" \/ matchType st = "hostname")
    (steps (asRequest body))
  /\ match new_Date (stringOr (raw_startDate body)),
           new_Date (stringOr (raw_endDate body)) with
     | Some _, Some _ =>
         exists result db',
           analyzeFunnel new_Date (asRequest body) db = (Ok result, db')
           /\ EventController.analyzeFunnel new_Date nullStepError body db
              = (Json 200 {| fr_success := true; fr_data := Some result;
                             fr_error := None |}, db')
     | _, _ =>
         EventController.analyzeFunnel new_Date nullStepError body db
         = (Json 500 {| fr_success := false; fr_data := None;
                        fr_error := Some "Invalid date format" |}, db)
     end.
Proof.
  destruct Hvalid as [[st [rest [Esteps Hwf]]] [Hs He]].
  apply isTruthy_true in Hs, He. split.
  - unfold asRequest. cbn [steps]. rewrite Esteps.
    apply Forall_map. eapply Forall_impl; [|exact Hwf].
    intros x [x' [-> [_ [[Ht|Ht] _]]]];
      cbn [matchType option_bind]; rewrite Ht; cbn; auto.
  - unfold EventController.analyzeFunnel. rewrite Esteps, Hs, He.
    cbn [negb orb]. rewrite (proj2 (validateSteps_Pass _) Hwf).
    assert (Hne : (length (steps (asRequest body)) =? 0)%nat = false).
    { unfold asRequest. cbn [steps]. now rewrite Esteps. }
    destruct (new_Date (stringOr (raw_startDate body))) as [s|] eqn:Ds.
    + destruct (new_Date (stringOr (raw_endDate body))) as [e|] eqn:De.
      * destruct (analyzeFunnel new_Date (asRequest body) db)
          as [[result|message] db'] eqn:Erun.
        -- exists result, db'. now split.
        -- exfalso.
           pose proof (proj1 (analyzeFunnel_outcome new_Date
                                (asRequest body) db)) as Hout.
           rewrite Erun in Hout. cbn [fst] in Hout.
           unfold analysisOf, asRequest in Hout.
           cbn [steps startDate endDate] in Hout.
           rewrite Esteps, Ds, De in Hout. discriminate.
      * unfold analyzeFunnel. rewrite Hne. cbn [startDate endDate asRequest].
        now rewrite Ds, De.
    + unfold analyzeFunnel. rewrite Hne. cbn [startDate endDate asRequest].
      now rewrite Ds.
Qed.

End ControllerFacts.

(** *** Instances on the fixtures *)

Lemma controller_getEventById_rejects_witness :
  EventController.getEventById fixture_toISOString fixture_ObjectId
    (Some "not-an-object-id") (db_of storedEvents)
  = (Json 404 {| er_success := false; er_data := None;
                 er_error := Some "Event not found" |}, db_of storedEvents).
Proof.
  apply (controller_getEventById_rejects fixture_toISOString fixture_ObjectId
           (Some "not-an-object-id") (db_of storedEvents)).
  intros s E. injection E as <-. reflexivity.
Defined.

Lemma controller_getEvents_limit_fallback_witness :
  exists events page,
    EventController.getEvents fixture_Date fixture_toISOString
      fixture_parseInt
      {| query_user_id := Some "user_1"; query_session_id := None;
         query_type := None; query_hostname := None; query_path := None;
         query_startDate := None; query_endDate := None;
         query_limit := Some "5000"; query_skip := None |}
      (db_of storedEvents)
    = (Json 200 {| es_success := true; es_data := Some events;
                   es_pagination := Some page; es_error := None |},
       db_of storedEvents)
    /\ pg_limit page = 100%Z
    /\ length events <= 100.
Proof.
  apply (controller_getEvents_limit_fallback fixture_Date
           fixture_toISOString fixture_parseInt).
  vm_compute. right. reflexivity.
Defined.


Lemma controller_analyzeFunnel_valid_body_witness :
  exists result db',
    EventController.analyzeFunnel fixture_Date fixture_nullStepError
      {| raw_steps := Some [rawStep "Homepage" "path" "/homepage";
                            rawStep "Pricing" "path" "/pricing"];
         raw_startDate := Some "2025-01-01T00:00:00Z";
         raw_endDate := Some "2025-01-31T23:59:59Z" |}
      (db_of mockEvents)
    = (Json 200 {| fr_success := true; fr_data := Some result;
                   fr_error := None |}, db')
    /\ map users (result_steps result) = [2; 1].
Proof.
  destruct (controller_analyzeFunnel_valid_body fixture_Date
              fixture_nullStepError
              {| raw_steps := Some [rawStep "Homepage" "path" "/homepage";
                                    rawStep "Pricing" "path" "/pricing"];
                 raw_startDate := Some "2025-01-01T00:00:00Z";
                 raw_endDate := Some "2025-01-31T23:59:59Z" |}
              (db_of mockEvents)) as [_ H].
  - split; [|split].
    + eexists. eexists. split; [reflexivity|].
      repeat constructor;
        (eexists; split; [reflexivity|]; repeat split;
         try (eexists; split; [reflexivity|discriminate]); now left).
    + eexists. split; [reflexivity|discriminate].
    + eexists. split; [reflexivity|discriminate].
  - cbn [raw_startDate raw_endDate stringOr] in H.
    change (fixture_Date "2025-01-01T00:00:00Z")
      with (Some 1735689600000%Z) in H.
    change (fixture_Date "2025-01-31T23:59:59Z")
      with (Some 1738367999000%Z) in H.
    destruct H as [result [db' [Hrun Hresp]]].
    exists result, db'. split; [exact Hresp|].
    vm_compute in Hrun. injection Hrun as <- _. reflexivity.
Defined.

(** ** Campaign analysis *)

Section CampaignFacts.

Variable new_Date : string -> option Z.
Variable getCampaignMetrics :
  Z -> Z -> option string -> option string -> option string ->
  Async (list CampaignMetrics).

(** X20.  [analyzeCampaigns] does not throw on a date that does not parse or
    on a start after the end: it returns a failure response with
    "Invalid date format", respectively "Start date must be before end
    date", and does not call the repository.  Equal dates pass. *)
Theorem analyzeCampaigns_rejects_dates
    (request : CampaignAnalysisRequest) (db : Db)
    (Hbad : match new_Date (ca_startDate request),
                  new_Date (ca_endDate request) with
            | Some startDate, Some endDate => (endDate < startDate)%Z
            | _, _ => True
            end) :
  analyzeCampaigns new_Date getCampaignMetrics request db
  = (Ok (campaignFailure
           match new_Date (ca_startDate request),
                 new_Date (ca_endDate request) with
           | Some _, Some _ => "Start date must be before end date"
           | _, _ => "Invalid date format"
           end), db).
Proof.
  unfold analyzeCampaigns, analyzeCampaigns_try.
  destruct (new_Date (ca_startDate request)) as [s|]; [|reflexivity].
  destruct (new_Date (ca_endDate request)) as [e|]; [|reflexivity].
  replace (s >? e)%Z with true; [reflexivity|].
  symmetry. rewrite Z.gtb_ltb. now apply Z.ltb_lt.
Qed.


End CampaignFacts.

Lemma analyzeCampaigns_rejects_dates_witness :
  analyzeCampaigns fixture_Date fixture_getCampaignMetrics
    {| ca_startDate := "2025-01-31T23:59:59Z";
       ca_endDate := "2025-01-01T00:00:00Z";
       ca_utm_source := None; ca_utm_medium := None;
       ca_utm_campaign := None |} (db_of mockEvents)
  = (Ok (campaignFailure "Start date must be before end date"),
     db_of mockEvents).
Proof.
  apply (analyzeCampaigns_rejects_dates fixture_Date
           fixture_getCampaignMetrics
           {| ca_startDate := "2025-01-31T23:59:59Z";
              ca_endDate := "2025-01-01T00:00:00Z";
              ca_utm_source := None; ca_utm_medium := None;
              ca_utm_campaign := None |} (db_of mockEvents)).
  vm_compute. reflexivity.
Defined.

(** ** The step builder *)

Lemma removeStep_absent (steps : list FunnelStepBuilder.FunnelStep)
    (removed : string) :
  ~ In removed (map FunnelStepBuilder.id steps) ->
  FunnelStepBuilder.removeStep steps removed = steps.
Proof.
  unfold FunnelStepBuilder.removeStep.
  induction steps as [|st steps IH]; intros Hfresh; [reflexivity|].
  cbn [filter map In] in *.
  destruct (String.eqb_spec (FunnelStepBuilder.id st) removed) as [E|E].
  - exfalso. apply Hfresh. now left.
  - cbn [negb]. rewrite IH; [reflexivity|]. intros H. apply Hfresh. now right.
Qed.

(** X22.  Removing the step that was just added, whose id no other step has,
    gives back the list of steps as it was. *)
Theorem removeStep_addStep
    (steps : list FunnelStepBuilder.FunnelStep) (uuid : string)
    (Hfresh : ~ In uuid (map FunnelStepBuilder.id steps)) :
  FunnelStepBuilder.removeStep (FunnelStepBuilder.addStep steps uuid) uuid
  = steps.
Proof.
  unfold FunnelStepBuilder.addStep, FunnelStepBuilder.removeStep.
  rewrite filter_app. cbn [filter FunnelStepBuilder.id].
  rewrite String.eqb_refl. cbn [negb]. rewrite app_nil_r.
  now apply removeStep_absent.
Qed.

Lemma removeStep_addStep_witness :
  FunnelStepBuilder.removeStep
    (FunnelStepBuilder.addStep
       [ {| FunnelStepBuilder.id := "a";
            FunnelStepBuilder.step_name := "Homepage";
            FunnelStepBuilder.step_matchType := "path";
            FunnelStepBuilder.step_matchValue := "/" |} ] "b") "b"
  = [ {| FunnelStepBuilder.id := "a";
         FunnelStepBuilder.step_name := "Homepage";
         FunnelStepBuilder.step_matchType := "path";
         FunnelStepBuilder.step_matchValue := "/" |} ].
Proof.
  apply removeStep_addStep.
  cbn. intros [H|H]; [discriminate | exact H].
Defined.

(** X23.  An update that does not set [id] keeps the ids of the steps, in
    order, and commutes with the removal of a step: updating then removing
    gives the list that removing then updating gives. *)
Theorem updateStep_keeps_ids
    (steps : list FunnelStepBuilder.FunnelStep) (updated removed : string)
    (updates : FunnelStepBuilder.Updates)
    (Hid : FunnelStepBuilder.new_id updates = None) :
  map FunnelStepBuilder.id
    (FunnelStepBuilder.updateStep steps updated updates)
  = map FunnelStepBuilder.id steps
  /\ FunnelStepBuilder.removeStep
       (FunnelStepBuilder.updateStep steps updated updates) removed
     = FunnelStepBuilder.updateStep
         (FunnelStepBuilder.removeStep steps removed) updated updates.
Proof.
  unfold FunnelStepBuilder.updateStep, FunnelStepBuilder.removeStep.
  rewrite Hid. cbn [FunnelStepBuilder.orElse].
  induction steps as [|st steps [IHids IHrem]]; [now split|].
  cbn [map filter]. split.
  - rewrite IHids. f_equal.
    now destruct (FunnelStepBuilder.id st =? updated).
  - rewrite IHrem.
    assert (Hsame :
      FunnelStepBuilder.id
        (if FunnelStepBuilder.id st =? updated
         then {| FunnelStepBuilder.id := FunnelStepBuilder.id st;
                 FunnelStepBuilder.step_name :=
                   FunnelStepBuilder.orElse
                     (FunnelStepBuilder.new_name updates)
                     (FunnelStepBuilder.step_name st);
                 FunnelStepBuilder.step_matchType :=
                   FunnelStepBuilder.orElse
                     (FunnelStepBuilder.new_matchType updates)
                     (FunnelStepBuilder.step_matchType st);
                 FunnelStepBuilder.step_matchValue :=
                   FunnelStepBuilder.orElse
                     (FunnelStepBuilder.new_matchValue updates)
                     (FunnelStepBuilder.step_matchValue st) |}
         else st)
      = FunnelStepBuilder.id st)
      by now destruct (FunnelStepBuilder.id st =? updated).
    rewrite Hsame.
    destruct (FunnelStepBuilder.id st =? removed); reflexivity.
Qed.

Lemma updateStep_keeps_ids_witness :
  map FunnelStepBuilder.id
    (FunnelStepBuilder.updateStep
       (FunnelStepBuilder.addStep [] "a") "a"
       {| FunnelStepBuilder.new_id := None;
          FunnelStepBuilder.new_name := Some "Homepage";
          FunnelStepBuilder.new_matchType := None;
          FunnelStepBuilder.new_matchValue := Some "/" |})
  = ["a"].
Proof.
  apply (updateStep_keeps_ids (FunnelStepBuilder.addStep [] "a") "a" "a").
  reflexivity.
Defined.
